(** * Interview agent: topic ledger, transition policy, topic selector,
    orchestrator routing and research-phase recovery.

  Shallow embedding of
  - [langchain-interview-agent/src/agents/interviewer_agent.py]
    ([InterviewerAgent.process]),
  - [src/graph.py] ([interviewer_node], [research_node]) and
    [src/agents/interviewer_agent.py] (the LangGraph-era agent),
  - [langflow-interview-agent/src/agents/orchestrator.py]
    ([Orchestrator.route]) with the chat handler of
    [langflow-interview-agent/app.py],
  - [langchain-interview-agent/src/agents/research_agent.py]
    ([ResearchAgent._perform_deep_analysis]).

  Text is modelled as ASCII strings; counters are natural numbers (they
  start at 0 and are only ever incremented); the language-model call is an
  opaque collaborator that returns a reply or raises, and its reply, where
  the code inspects it, is an input of the model. *)

From Stdlib Require Import String Ascii List Bool Arith Lia.
Import ListNotations.

Local Open Scope string_scope.
Local Open Scope list_scope.
Local Open Scope nat_scope.

(* ===================================================================== *)
(** ** Python string builtins used by the agents *)
(* ===================================================================== *)

Module Text.

Definition is_upper (c : ascii) : bool :=
  let n := nat_of_ascii c in (65 <=? n) && (n <=? 90).

Definition lower_char (c : ascii) : ascii :=
  if is_upper c then ascii_of_nat (nat_of_ascii c + 32) else c.

(** [str.lower()] *)
Fixpoint lower (s : string) : string :=
  match s with
  | EmptyString => EmptyString
  | String c r => String (lower_char c) (lower r)
  end.

(** [str.isspace()] on one ASCII character: TAB..CR, FS..US and space. *)
Definition is_space (c : ascii) : bool :=
  let n := nat_of_ascii c in
  ((9 <=? n) && (n <=? 13)) || ((28 <=? n) && (n <=? 32)).

Fixpoint lstrip (s : string) : string :=
  match s with
  | EmptyString => EmptyString
  | String c r => if is_space c then lstrip r else s
  end.

Fixpoint rstrip (s : string) : string :=
  match s with
  | EmptyString => EmptyString
  | String c r =>
      match rstrip r with
      | EmptyString => if is_space c then EmptyString else String c EmptyString
      | r' => String c r'
      end
  end.

(** [str.strip()] *)
Definition strip (s : string) : string := rstrip (lstrip s).

(** [sub in s] *)
Fixpoint contains (sub s : string) : bool :=
  if String.prefix sub s then true
  else match s with
       | EmptyString => false
       | String _ r => contains sub r
       end.

(** [s.split(': ')]: the segments between the occurrences of the
    two-character separator, scanned left to right. *)
Fixpoint split_colon_space (s : string) : list string :=
  match s with
  | EmptyString => [EmptyString]
  | String c r =>
      let keep :=
        match split_colon_space r with
        | seg :: segs => String c seg :: segs
        | [] => [String c EmptyString]
        end in
      match r with
      | String d r' =>
          if Ascii.eqb c ":" && Ascii.eqb d " "
          then EmptyString :: split_colon_space r'
          else keep
      | EmptyString => keep
      end
  end.

(** [x in l] for a list of strings *)
Definition mem (x : string) (l : list string) : bool :=
  existsb (String.eqb x) l.

(** Python truthiness of a [str]. *)
Definition nonempty (s : string) : bool :=
  match s with EmptyString => false | String _ _ => true end.

End Text.

(* ===================================================================== *)
(** ** Session data shared by the agents *)
(* ===================================================================== *)

(** The [state] tag of a session.  [UNKNOWN] stands for any other value. *)
Inductive State : Type :=
| START | RESEARCH | KPI_CALCULATION | INTERVIEW_START | INTERVIEWING
| SCORING | UNKNOWN.

Definition State_eqb (a b : State) : bool :=
match a, b with
| START, START | RESEARCH, RESEARCH | KPI_CALCULATION, KPI_CALCULATION
| INTERVIEW_START, INTERVIEW_START | INTERVIEWING, INTERVIEWING
| SCORING, SCORING | UNKNOWN, UNKNOWN => true
| _, _ => false
end.

(** An entry of [discovered_projects]: a dict (whose ["name"] and
  ["description"] keys may be missing) or a bare string. *)
Inductive Project : Type :=
| PDict (name description : option string)
| PStr (s : string).

(** Python truthiness of an [Optional[str]]. *)
Definition truthy (t : option string) : bool :=
match t with
| Some s => Text.nonempty s
| None => false
end.

(* ===================================================================== *)
(** ** langchain-interview-agent: [InterviewerAgent.process] *)
(* ===================================================================== *)

Module Interviewer.

Record Ctx : Type := mkCtx {
  state : State;
  cv_skills : list string;            (* cv_data['skills'] *)
  unverified_skills : list string;
  discovered_projects : list Project;
  current_topic : option string;
  covered_topics : list string;
  topic_turns : nat;
  unverified_asked : nat;
  projects_asked : nat
}.

(** [normalize(name) = str(name).strip().lower()] *)
Definition normalize (name : string) : string :=
  Text.lower (Text.strip name).

Definition unknown_signals : list string :=
  [ "don't know"; "do not know"; "no idea"; "not sure";
    "don't have experience"; "never used"; "don't have any experience";
    "basic structure"; "don't know much"; "just did"; "same questions";
    "skip"; "move on"; "no experience"; "haven't used" ].

Definition is_unknown (user_input : string) : bool :=
  let input_lower := Text.lower user_input in
  existsb (fun signal => Text.contains signal input_lower) unknown_signals.

(** ["unverified" in current_topic.lower()] *)
Definition is_unverified_topic (topic : string) : bool :=
  Text.contains "unverified" (Text.lower topic).

Definition max_turns (topic : string) : nat :=
  if is_unverified_topic topic then 2 else 3.

(** [current_topic.split(': ')[-1]] *)
Definition topic_name (topic : string) : string :=
  last (Text.split_colon_space topic) EmptyString.

Definition normalized_covered (c : Ctx) : list string :=
  map normalize (covered_topics c).

(** Lines 68-76: [topic_turns] is the already incremented count. *)
Definition force_transition
    (user_input : string) (topic : option string) (turns : nat) : bool :=
  if is_unknown user_input && truthy topic then true
  else match topic with
       | Some t => if truthy topic then max_turns t <? turns else false
       | None => false
       end.

(** Lines 83-90: mark as covered and increment the category counter,
    unless the normalized name is already covered. *)
Definition retire (topic : string) (c : Ctx) : Ctx :=
  let name := topic_name topic in
  if Text.mem (normalize name) (normalized_covered c) then c
  else
    let u := if is_unverified_topic topic
             then S (unverified_asked c) else unverified_asked c in
    let p := if is_unverified_topic topic
             then projects_asked c else S (projects_asked c) in
    mkCtx (state c) (cv_skills c) (unverified_skills c)
          (discovered_projects c) (current_topic c)
          (covered_topics c ++ [name]) (topic_turns c) u p.

Definition set_topic (t : option string) (turns : nat) (c : Ctx) : Ctx :=
  mkCtx (state c) (cv_skills c) (unverified_skills c)
        (discovered_projects c) t (covered_topics c) turns
        (unverified_asked c) (projects_asked c).

Definition set_state (s : State) (c : Ctx) : Ctx :=
  mkCtx s (cv_skills c) (unverified_skills c)
        (discovered_projects c) (current_topic c) (covered_topics c)
        (topic_turns c) (unverified_asked c) (projects_asked c).

Inductive SkipHint : Type :=
| LacksKnowledge (name : string)
| SufficientlyCovered (name : string).

(** Lines 48-97: the turn-count increment and the forced transition.
    Returns the ledger as it stands when topic selection is reached,
    together with the skip hint (present iff a transition was forced). *)
Definition transition (user_input : string) (c : Ctx)
  : Ctx * option SkipHint :=
  let turns := if truthy (current_topic c)
               then S (topic_turns c) else topic_turns c in
  let force := force_transition user_input (current_topic c) turns in
  match current_topic c with
  | Some t =>
      if force && truthy (current_topic c) then
        (set_topic None 0 (retire t c),
         Some (if is_unknown user_input
               then LacksKnowledge (topic_name t)
               else SufficientlyCovered (topic_name t)))
      else (set_topic (current_topic c) turns c, None)
  | None => (set_topic (current_topic c) turns c, None)
  end.

Inductive Selection : Type :=
| SelUnverified (skill : string)
| SelProject (p : Project)
| SelVerified (skill : string)
| SelGeneric.

Definition project_name (p : Project) : option string :=
  match p with
  | PDict n _ => n
  | PStr s => Some s
  end.

(** [name and normalize(name) not in normalized_covered] *)
Definition project_available (covered_norm : list string) (p : Project)
  : bool :=
  match project_name p with
  | Some n => Text.nonempty n && negb (Text.mem (normalize n) covered_norm)
  | None => false
  end.

(** What an f-string prints for [proj.get('name')]. *)
Definition show_name (p : Project) : string :=
  match project_name p with
  | Some n => n
  | None => "None"
  end.

Definition verified_skills (c : Ctx) : list string :=
  let unverified_set := map normalize (unverified_skills c) in
  filter (fun s => negb (Text.mem (normalize s) unverified_set)
                   && negb (Text.mem (normalize s) (normalized_covered c)))
         (cv_skills c).

(** Lines 100-142: topic selection. *)
Definition select (c : Ctx) : Ctx * Selection :=
  let c1 := set_state INTERVIEWING c in
  let can_verify := unverified_asked c <? length (unverified_skills c) in
  let pick_unverified :=
    can_verify && (projects_asked c =? unverified_asked c * 2) in
  if pick_unverified then
    let skill := nth (unverified_asked c) (unverified_skills c) EmptyString in
    (set_topic (Some ("Unverified: " ++ skill)%string) 1 c1,
     SelUnverified skill)
  else
    match filter (project_available (normalized_covered c))
                 (discovered_projects c) with
    | proj :: _ =>
        (set_topic (Some ("Project: " ++ show_name proj)%string) 1 c1,
         SelProject proj)
    | [] =>
        match verified_skills c with
        | skill :: _ =>
            (set_topic (Some ("Verified Skill: " ++ skill)%string) 1 c1,
             SelVerified skill)
        | [] => (set_topic (current_topic c) 1 c1, SelGeneric)
        end
    end.

(** What a turn reports besides the new context. *)
Record Turn : Type := mkTurn {
  skip_hint : option SkipHint;
  selected : option Selection     (* [None]: the current topic continues *)
}.

Definition forced (t : Turn) : bool :=
  match skip_hint t with Some _ => true | None => false end.

(** One turn of [InterviewerAgent.process] on which the language-model
    call (line 154) returns; its reply is not inspected.  What the
    session holds when the call raises is
    [InterviewerSession.process_raising]. *)
Definition process (user_input : string) (c : Ctx) : Ctx * Turn :=
  let '(c1, hint) := transition user_input c in
  if State_eqb (state c) INTERVIEW_START || negb (truthy (current_topic c1))
  then let '(c2, sel) := select c1 in (c2, mkTurn hint (Some sel))
  else (c1, mkTurn hint None).

(** The ledger as the chat handler creates it, once the research phase
    has filled the candidate pools. *)
Definition initial (st : State) (skills unverified : list string)
    (projects : list Project) : Ctx :=
  mkCtx st skills unverified projects None [] 0 0 0.

(** A sequence of interviewer turns on each of which the language-model
    call returns.  Sessions in which a call may fail are
    [InterviewerSession.session]. *)
Definition run (inputs : list string) (c : Ctx) : Ctx :=
  fold_left (fun c i => fst (process i c)) inputs c.

(** While unverified skills remain, no more than two project topics have
    been counted per unverified topic, and a project-category topic is
    only in flight when counting it keeps that true. *)
Definition ratio_ok (c : Ctx) : Prop :=
  (projects_asked c <= unverified_asked c * 2
   \/ length (unverified_skills c) <= unverified_asked c)
  /\ (forall t, current_topic c = Some t ->
                truthy (Some t) = true ->
                is_unverified_topic t = false ->
                projects_asked c < unverified_asked c * 2
                \/ length (unverified_skills c) <= unverified_asked c).

End Interviewer.

(** A call that may raise instead of returning. *)
Inductive Outcome (A : Type) : Type :=
| Returns (a : A)
| Raises.
Arguments Returns {A} a.
Arguments Raises {A}.

Definition returns {A : Type} (o : Outcome A) : bool :=
  match o with
  | Returns _ => true
  | Raises => false
  end.

(* ===================================================================== *)
(** ** src/agents/interviewer_agent.py: the LangGraph-era agent *)
(* ===================================================================== *)

Module GraphAgent.

Import Interviewer.

(** [name and name not in covered_topics]: the raw name is compared. *)
Definition project_available (covered : list string) (p : Project) : bool :=
  match project_name p with
  | Some n => Text.nonempty n && negb (Text.mem n covered)
  | None => false
  end.

(** Lines 57-85: topic selection ([topic_turns] is not a key this agent
    writes). *)
Definition select (c : Ctx) : Ctx * Selection :=
  let c1 := set_state INTERVIEWING c in
  let can_verify := unverified_asked c <? length (unverified_skills c) in
  let must_do_project :=
    (projects_asked c <? unverified_asked c * 2) || negb can_verify in
  if can_verify && negb must_do_project then
    let skill := nth (unverified_asked c) (unverified_skills c) EmptyString in
    (set_topic (Some ("Unverified: " ++ skill)%string) (topic_turns c) c1,
     SelUnverified skill)
  else
    match filter (project_available (covered_topics c))
                 (discovered_projects c) with
    | proj :: _ =>
        (set_topic (Some ("Project: " ++ show_name proj)%string)
                   (topic_turns c) c1,
         SelProject proj)
    | [] => (c1, SelGeneric)
    end.

(** ["moving on" in response.lower() or "another area" in response.lower()] *)
Definition moves_on (response : string) : bool :=
  Text.contains "moving on" (Text.lower response)
  || Text.contains "another area" (Text.lower response).

(** Lines 103-117: the trackers are updated from the model's reply.  The
    covered name is appended and the counter incremented without looking
    at [covered_topics]. *)
Definition update_trackers (response : string) (c : Ctx) : Ctx :=
  if moves_on response then
    match current_topic c with
    | Some t =>
        if truthy (current_topic c) then
          mkCtx (state c) (cv_skills c) (unverified_skills c)
                (discovered_projects c) None
                (covered_topics c ++ [topic_name t]) (topic_turns c)
                (if is_unverified_topic t
                 then S (unverified_asked c) else unverified_asked c)
                (if is_unverified_topic t
                 then projects_asked c else S (projects_asked c))
        else set_topic None (topic_turns c) c
    | None => set_topic None (topic_turns c) c
    end
  else c.

(** One completed turn; [response] is the model's reply. *)
Definition process (response : string) (c : Ctx) : Ctx * option Selection :=
  if State_eqb (state c) INTERVIEW_START || negb (truthy (current_topic c))
  then let '(c1, sel) := select c in (update_trackers response c1, Some sel)
  else (update_trackers response c, None).

End GraphAgent.

(* ===================================================================== *)
(** ** src/graph.py: [interviewer_node] *)
(* ===================================================================== *)

Module Graph.

Import Interviewer.

(** The interview trackers of [AgentState]. *)
Record AgentState : Type := mkAgentState {
  g_unverified_skills : list string;
  g_discovered_projects : list Project;
  g_unverified_asked : nat;
  g_projects_asked : nat;
  g_covered_topics : list string;
  g_current_topic : option string
}.

(** [p.get('name')]: only a dict has [get]. *)
Fixpoint names (ps : list Project) : Outcome (list (option string)) :=
  match ps with
  | [] => Returns []
  | PDict n _ :: r =>
      match names r with
      | Returns ns => Returns (n :: ns)
      | Raises => Raises
      end
  | PStr _ :: _ => Raises
  end.

(** [name not in covered_topics], where a missing name is [None]. *)
Definition not_covered (covered : list string) (n : option string) : bool :=
  match n with
  | Some s => negb (Text.mem s covered)
  | None => true
  end.

(** Lines 134-147: the topic the node works on this turn. *)
Definition pick_topic (s : AgentState) : Outcome string :=
  match g_current_topic s with
  | Some (String a r) => Returns (String a r)
  | _ =>
      let can_verify :=
        g_unverified_asked s <? length (g_unverified_skills s) in
      let must_do_project :=
        (g_projects_asked s <? g_unverified_asked s * 2)
        || negb can_verify in
      if can_verify && negb must_do_project then
        Returns ("Unverified: "
                 ++ nth (g_unverified_asked s) (g_unverified_skills s)
                        EmptyString)%string
      else
        match names (g_discovered_projects s) with
        | Raises => Raises
        | Returns ns =>
            match filter (not_covered (g_covered_topics s)) ns with
            | Some n :: _ => Returns ("Project: " ++ n)%string
            | None :: _ => Raises             (* proj['name']: KeyError *)
            | [] => Returns "CV_Project"
            end
        end
  end.

(** Lines 168-190: the trackers returned by the node, given the topic it
    worked on and the model's reply. *)
Definition settle (response : string) (topic : string) (s : AgentState)
  : AgentState :=
  if Text.contains "moving on" (Text.lower response) then
    if Text.nonempty topic then
      mkAgentState (g_unverified_skills s) (g_discovered_projects s)
        (if is_unverified_topic topic
         then S (g_unverified_asked s) else g_unverified_asked s)
        (if is_unverified_topic topic
         then g_projects_asked s else S (g_projects_asked s))
        (g_covered_topics s ++ [topic_name topic]) None
    else
      mkAgentState (g_unverified_skills s) (g_discovered_projects s)
        (g_unverified_asked s) (g_projects_asked s) (g_covered_topics s) None
  else
    mkAgentState (g_unverified_skills s) (g_discovered_projects s)
      (g_unverified_asked s) (g_projects_asked s) (g_covered_topics s)
      (Some topic).

(** Line 149: [p.get('name', 'Project')] is evaluated for every discovered
    project, whatever topic was picked; only a dict has [get]. *)
Definition project_list (ps : list Project) : Outcome (list string) :=
  match names ps with
  | Returns ns =>
      Returns (map (fun n => match n with
                             | Some x => x
                             | None => "Project"
                             end) ns)
  | Raises => Raises
  end.

Definition interviewer_node (response : string) (s : AgentState)
  : Outcome AgentState :=
  match pick_topic s with
  | Returns topic =>
      match project_list (g_discovered_projects s) with
      | Returns _ => Returns (settle response topic s)
      | Raises => Raises
      end
  | Raises => Raises
  end.

End Graph.

(* ===================================================================== *)
(** ** [InterviewerAgent.process] over a session, failed calls included *)
(* ===================================================================== *)

Module InterviewerSession.

Import Interviewer.

(** What the session holds when the language-model call (line 154)
    raises.  By then [covered_topics] has been appended to in place (line
    85) and, if the selector ran, [state] and [current_topic] have been
    written (lines 101 and 142); the counters and [topic_turns] are only
    stored after the call (lines 158-162), and the chat handler keeps the
    dict as it is. *)
Definition process_raising (user_input : string) (c : Ctx) : Ctx :=
  let c1 := fst (transition user_input c) in
  if State_eqb (state c) INTERVIEW_START || negb (truthy (current_topic c1))
  then
    let c2 := fst (select c1) in
    mkCtx (state c2) (cv_skills c) (unverified_skills c)
          (discovered_projects c) (current_topic c2) (covered_topics c1)
          (topic_turns c) (unverified_asked c) (projects_asked c)
  else
    mkCtx (state c) (cv_skills c) (unverified_skills c)
          (discovered_projects c) (current_topic c) (covered_topics c1)
          (topic_turns c) (unverified_asked c) (projects_asked c).

(** Line 100: whether the selector runs on a turn.  It reads the ledger as
    the forced-transition phase leaves it. *)
Definition selector_runs (user_input : string) (c : Ctx) : bool :=
  State_eqb (state c) INTERVIEW_START
  || negb (truthy (current_topic (fst (transition user_input c)))).

(** One interviewer turn; [llm] is what the language-model call does. *)
Definition step (user_input : string) (llm : Outcome string) (c : Ctx)
  : Ctx :=
  match llm with
  | Returns _ => fst (process user_input c)
  | Raises => process_raising user_input c
  end.

(** A session: any sequence of interviewer turns, each with the outcome
    of its language-model call. *)
Definition session (turns : list (string * Outcome string)) (c : Ctx)
  : Ctx :=
  fold_left (fun c t => step (fst t) (snd t) c) turns c.

(** Every call of the sequence returned. *)
Definition all_returned (turns : list (string * Outcome string)) : bool :=
  forallb (fun t => returns (snd t)) turns.

(** No call of the sequence returned. *)
Definition none_returned (turns : list (string * Outcome string)) : bool :=
  forallb (fun t => negb (returns (snd t))) turns.

(** The three kinds of topic the selector activates (lines 111, 125 and
    134), with the tag each one is stored under. *)
Inductive Category : Type :=
| UnverifiedSkill
| ProjectTopic
| VerifiedSkill.

Definition tag (cat : Category) : string :=
  match cat with
  | UnverifiedSkill => "Unverified"
  | ProjectTopic => "Project"
  | VerifiedSkill => "Verified Skill"
  end.

Definition topic_of (cat : Category) (name : string) : string :=
  (tag cat ++ ": " ++ name)%string.

(** The counter that stands for a category: unverified skills are counted
    in [unverified_asked], projects and verified skills in
    [projects_asked]. *)
Definition asked (cat : Category) (c : Ctx) : nat :=
  match cat with
  | UnverifiedSkill => unverified_asked c
  | ProjectTopic | VerifiedSkill => projects_asked c
  end.

(** The turn limit the comment of line 73 gives each category. *)
Definition limit (cat : Category) : nat :=
  match cat with
  | UnverifiedSkill => 2
  | ProjectTopic | VerifiedSkill => 3
  end.

(** Names the string tests of lines 74, 80 and 87 read back correctly: no
    [": "] inside, and, for a project or a verified skill, no
    "unverified" in any letter case. *)
Definition plain (cat : Category) (name : string) : bool :=
  negb (Text.contains ": " name)
  && match cat with
     | UnverifiedSkill => true
     | ProjectTopic | VerifiedSkill =>
         negb (Text.contains "unverified" (Text.lower name))
     end.

End InterviewerSession.

(* ===================================================================== *)
(** ** src/graph.py: [interviewer_node] over a session *)
(* ===================================================================== *)

Module GraphSession.

Import Interviewer Graph.

(** The trackers a new graph state starts from.  The two pools are those
    the research phase leaves: [research_node] writes them only while
    [unverified_skills] is empty (line 65) and is routed back to itself
    until it is not, so [interviewer_node] sees them fixed. *)
Definition initial (unverified : list string) (projects : list Project)
  : AgentState :=
  mkAgentState unverified projects 0 0 [] None.

(** One run of the node; when the model call or the node itself raises,
    no update is returned and the trackers stay as they were. *)
Definition step (llm : Outcome string) (s : AgentState) : AgentState :=
  match llm with
  | Returns response =>
      match interviewer_node response s with
      | Returns s' => s'
      | Raises => s
      end
  | Raises => s
  end.

Definition run (replies : list (Outcome string)) (s : AgentState)
  : AgentState :=
  fold_left (fun s r => step r s) replies s.

(** The ratio as the node keeps it. *)
Definition ratio_ok (s : AgentState) : Prop :=
  (g_projects_asked s <= g_unverified_asked s * 2
   \/ length (g_unverified_skills s) <= g_unverified_asked s)
  /\ (forall t, g_current_topic s = Some t ->
                Text.nonempty t = true ->
                is_unverified_topic t = false ->
                g_projects_asked s < g_unverified_asked s * 2
                \/ length (g_unverified_skills s) <= g_unverified_asked s).

End GraphSession.

(* ===================================================================== *)
(** ** Research phase: deep analysis and its recovery *)
(* ===================================================================== *)

Module Research.

(** Parsed JSON, as [json.loads] and [JsonOutputParser] hand it over. *)
#[local] Set Warnings "-register-all".
Inductive json : Type :=
| JNull
| JBool (b : bool)
| JNum (literal : string)
| JStr (s : string)
| JList (items : list json)
| JDict (fields : list (string * json)).

(** [d.get(key)] *)
Fixpoint get (key : string) (fields : list (string * json)) : option json :=
  match fields with
  | [] => None
  | (k, v) :: r => if String.eqb k key then Some v else get key r
  end.

(** [d.get(key, default)] *)
Definition get_default (key : string) (default : json)
    (fields : list (string * json)) : json :=
  match get key fields with
  | Some v => v
  | None => default
  end.

Fixpoint chars (s : string) : list json :=
  match s with
  | EmptyString => []
  | String c r => JStr (String c EmptyString) :: chars r
  end.

(** [for p in v]: a list yields its items, a string its characters, a
    dict its keys; anything else raises [TypeError]. *)
Definition iterate (v : json) : Outcome (list json) :=
  match v with
  | JList items => Returns items
  | JStr s => Returns (chars s)
  | JDict fields => Returns (map (fun kv => JStr (fst kv)) fields)
  | JNull | JBool _ | JNum _ => Raises
  end.

Definition is_dict (v : json) : bool :=
  match v with JDict _ => true | _ => false end.

(** The record has a ["name"] key. *)
Definition has_name (v : json) : bool :=
  match v with
  | JDict fields => match get "name" fields with Some _ => true | None => false end
  | _ => false
  end.

(** A repository as [SerperService.get_github_repos] builds it. *)
Record Repo : Type := mkRepo { repo_name : string; repo_description : string }.

Definition repo_json (r : Repo) : json :=
  JDict [("name", JStr (repo_name r));
         ("description", JStr (repo_description r))].

Definition bare_project (s : string) : json :=
  JDict [("name", JStr s); ("description", JStr EmptyString)].

(** research_agent.py, lines 212-217. *)
Fixpoint normalize_projects (final_projects : list json) : list json :=
  match final_projects with
  | [] => []
  | JDict fields :: r => JDict fields :: normalize_projects r
  | JStr s :: r => bare_project s :: normalize_projects r
  | _ :: r => normalize_projects r
  end.

Definition fallback_analysis : json :=
  JStr "I've analyzed your profiles and am ready to proceed.".

Section DeepAnalysis.

(** [SerperService.get_github_repos]: the verification collaborator. *)
Variable get_github_repos : string -> list Repo.

(** Lines 162-164. *)
Definition real_projects (github : option string) : list json :=
  match github with
  | Some g =>
      if Text.nonempty g && negb (String.eqb g "N/A")
      then map repo_json (get_github_repos g)
      else []
  | None => []
  end.

(** Lines 201-222, the body of the [try]; [chain] is what
    [chain.ainvoke] does: it returns the parsed data or raises. *)
Definition analyse (real : list json) (chain : Outcome json)
  : Outcome (json * json * list json) :=
  match chain with
  | Raises => Raises
  | Returns (JDict fields) =>
      match iterate (get_default "discovered_projects" (JList []) fields)
      with
      | Raises => Raises
      | Returns final_projects =>
          let normalized := normalize_projects final_projects in
          let normalized :=
            match normalized, real with
            | [], _ :: _ => real
            | _, _ => normalized
            end in
          Returns (get_default "analysis" (JStr EmptyString) fields,
                   get_default "unverified_skills" (JList []) fields,
                   normalized)
      end
  | Returns _ => Raises                    (* data.get: AttributeError *)
  end.

(** [ResearchAgent._perform_deep_analysis]: (analysis, unverified
    skills, discovered projects). *)
Definition perform_deep_analysis (github : option string)
    (chain : Outcome json) : Outcome (json * json * list json) :=
  let real := real_projects github in
  match analyse real chain with
  | Returns r => Returns r
  | Raises => Returns (fallback_analysis, JList [], real)
  end.

(** What [ResearchAgent.process] returns once the links are verified
    (lines 115-124 and 136-144). *)
Record Reply : Type := mkReply {
  ctx_unverified_skills : json;
  ctx_discovered_projects : list json;
  next_state : option State
}.


End DeepAnalysis.

(** src/graph.py, [research_node], lines 77-87: the state update returned
    by the analysis step.  A key that is absent from the update keeps the
    state's value. *)
Record Update : Type := mkUpdate {
  upd_unverified_skills : option json;
  upd_discovered_projects : option json
}.

Definition graph_analysis (state_projects : json) (loaded : Outcome json)
  : Update :=
  match loaded with
  | Returns (JDict fields) =>
      mkUpdate (Some (get_default "unverified_skills" (JList []) fields))
               (Some (get_default "discovered_projects" state_projects fields))
  | _ => mkUpdate (Some (JList [JStr "Technical Depth"])) None
  end.

End Research.

(* ===================================================================== *)
(** ** langflow-interview-agent: [Orchestrator.route] and the chat handler *)
(* ===================================================================== *)

Module Orchestrator.

Inductive Agent : Type :=
| GreetingBot | ResearchAgent | KPIAgent | InterviewerAgent | ScoreAgent.

Record Message : Type := mkMessage {
  role : string;
  content : string;
  agent : option Agent
}.

Record Session : Type := mkSession {
  state : State;
  history : list Message
}.

(** What the collaborators do on one turn.  The agents are seen through
    their effect on [state]: the research agent reports [next_state]
    ["KPI_CALCULATION"] or none, the KPI agent always reports
    ["INTERVIEW_START"], the interviewer writes ["INTERVIEWING"] when it
    reaches topic selection, the greeting and scoring agents write
    nothing. *)
Record Env : Type := mkEnv {
  research_done : bool;
  selects : bool;
  reply : Outcome string          (* the dispatched agent returns or raises *)
}.

Definition returned (e : Env) : bool :=
  match reply e with Returns _ => true | Raises => false end.

Definition greets (text : string) : bool :=
  existsb (fun greet => Text.contains greet text) ["hi"; "hello"; "hey"].

(** [Orchestrator.route]: the agent the turn is dispatched to and the
    value of [context['state']] when the call ends. *)
Definition route (e : Env) (user_input : string) (s : Session)
  : Agent * State :=
  let text := Text.lower user_input in
  let has_links :=
    Text.contains "github.com" text || Text.contains "linkedin.com" text in
  if greets text && (length (history s) <? 3) && negb has_links
  then (GreetingBot, state s)
  else
    match state s with
    | START | RESEARCH =>
        (ResearchAgent,
         if returned e && research_done e then KPI_CALCULATION else state s)
    | KPI_CALCULATION =>
        (KPIAgent, if returned e then INTERVIEW_START else state s)
    | INTERVIEW_START | INTERVIEWING =>
        if Text.contains "finish the interview" text
           || (25 <? length (history s))
        then (ScoreAgent, SCORING)
        else (InterviewerAgent, INTERVIEWING)
    | SCORING => (ScoreAgent, SCORING)
    | UNKNOWN =>
        (InterviewerAgent, if selects e then INTERVIEWING else UNKNOWN)
    end.

(** [chat_with_agent] in app.py: the context is the stored session
    itself, so what [route] wrote stays even when the agent raises; the
    two history entries are appended only when it returns. *)
Definition chat (e : Env) (user_input : string) (s : Session)
  : Agent * Session :=
  let '(a, st) := route e user_input s in
  match reply e with
  | Returns text =>
      (a, mkSession st
            (history s ++ [mkMessage "user" user_input None;
                           mkMessage "assistant" text (Some a)]))
  | Raises => (a, mkSession st (history s))
  end.

Definition new_session : Session := mkSession START [].

(** The dispatches and stored sessions of a sequence of turns. *)
Fixpoint chat_trace (turns : list (Env * string)) (s : Session)
  : list (Agent * Session) :=
  match turns with
  | [] => []
  | (e, i) :: r =>
      let step := chat e i s in step :: chat_trace r (snd step)
  end.

Inductive reachable : Session -> Prop :=
| reach_new : reachable new_session
| reach_chat e i s : reachable s -> reachable (snd (chat e i s)).


(** How much history a session has accumulated by the time it is in a
    given state: a returned research turn precedes [KPI_CALCULATION], and
    a returned benchmark turn as well precedes the interviewing and
    scoring states. *)
Definition seasoned (s : Session) : Prop :=
  match state s with
  | START | RESEARCH => True
  | KPI_CALCULATION => 2 <= length (history s)
  | INTERVIEW_START | INTERVIEWING | SCORING => 4 <= length (history s)
  | UNKNOWN => False
  end.

End Orchestrator.

(* ===================================================================== *)
(** ** src/agents/interviewer_agent.py over a session *)
(* ===================================================================== *)

Module GraphAgentRun.

Import Interviewer.

(** One turn of the LangGraph-era agent; [llm] is what [_call_llm] does.
    When it raises, [state] and [current_topic] have been written if the
    selector ran (lines 58 and 85) and nothing else has. *)
Definition step (llm : Outcome string) (c : Ctx) : Ctx :=
  match llm with
  | Returns response => fst (GraphAgent.process response c)
  | Raises =>
      if State_eqb (state c) INTERVIEW_START
         || negb (truthy (current_topic c))
      then fst (GraphAgent.select c)
      else c
  end.

(** A sequence of turns, given what each model call did. *)
Definition run (replies : list (Outcome string)) (c : Ctx) : Ctx :=
  fold_left (fun c r => step r c) replies c.

End GraphAgentRun.

(* ===================================================================== *)
(** ** src/graph.py: [should_continue] and the gate of [research_node] *)
(* ===================================================================== *)

Module Router.

Import Research.

(** The last message of the graph state, as the router reads it.
    [tool_calls] is the number of tool calls it carries. *)
Record Message : Type := mkMessage {
  is_ai : bool;                       (* isinstance(last_message, AIMessage) *)
  tool_calls : nat;
  content : option string             (* getattr(last_message, "content", "") *)
}.

(** The keys of the conditional edges, and [END]. *)
Inductive Route : Type :=
| ToTools | ToResearch | ToInterviewer | ToFeedback | ToEnd.

(** Lines 198-227. *)
Definition should_continue (m : Message) : Route :=
  if negb (tool_calls m =? 0) then ToTools
  else
    let content := match content m with
                   | Some s => s
                   | None => EmptyString
                   end in
    if Text.contains "INTERNAL_READY_TO_ANALYZE" content
       || Text.contains "INTERNAL_RESEARCH_COMPLETE" content
    then ToResearch
    else if Text.contains "RESEARCH_COMPLETE" content
            || Text.contains "SKIP_RESEARCH" content
    then ToInterviewer
    else if Text.contains "interview session is complete" (Text.lower content)
    then ToEnd
    else if is_ai m then
      if String.eqb (Text.strip content) EmptyString
         || Text.contains "INTERNAL_" content
      then ToInterviewer
      else ToEnd
    else ToInterviewer.

Section Gate.

(** Whether Python reads a number literal as zero. *)
Variable is_zero : string -> bool.

(** Python truthiness of a parsed value. *)
Definition json_truthy (v : json) : bool :=
  match v with
  | JNull => false
  | JBool b => b
  | JNum literal => negb (is_zero literal)
  | JStr s => Text.nonempty s
  | JList items => match items with [] => false | _ :: _ => true end
  | JDict fields => match fields with [] => false | _ :: _ => true end
  end.

(** The part of [AgentState] the analysis step of [research_node] reads
    and writes; a key that is not set is [None]. *)
Record ResearchState : Type := mkResearchState {
  github_verified : bool;
  linkedin_verified : bool;
  unverified_skills : option json;
  discovered_projects : option json
}.

(** Line 65: whether [research_node] takes the analysis step. *)
Definition ready_for_analysis (s : ResearchState) : bool :=
  github_verified s && linkedin_verified s
  && negb (match unverified_skills s with
           | Some v => json_truthy v
           | None => false
           end).

(** The state after the analysis step: the returned keys replace the
    state's values ([loaded] is what [json.loads] makes of the reply). *)
Definition after_analysis (loaded : Outcome json) (s : ResearchState)
  : ResearchState :=
  let upd :=
    graph_analysis (match discovered_projects s with
                    | Some v => v
                    | None => JList []
                    end) loaded in
  mkResearchState (github_verified s) (linkedin_verified s)
    (match upd_unverified_skills upd with
     | Some v => Some v
     | None => unverified_skills s
     end)
    (match upd_discovered_projects upd with
     | Some v => Some v
     | None => discovered_projects s
     end).

End Gate.

End Router.

(* ===================================================================== *)
(** ** serper_service.py: what [get_github_repos] makes of a search *)
(* ===================================================================== *)

Module Serper.

Import Research.

(** One entry of the ["organic"] list; a missing key reads as [""]. *)
Record Hit : Type := mkHit { title : string; snippet : string }.

(** The double-quote character, as a string. *)
Definition dquote : string := String (ascii_of_nat 34) EmptyString.

(** [s.split('/')[-1]] *)
Fixpoint after_last_slash (s : string) : string :=
  match s with
  | EmptyString => EmptyString
  | String c r =>
      if Text.contains "/" r then after_last_slash r
      else if Ascii.eqb c "/" then r
      else s
  end.

Fixpoint take_token (s : string) : string :=
  match s with
  | EmptyString => EmptyString
  | String c r => if Text.is_space c then EmptyString
                  else String c (take_token r)
  end.

(** [s.split()[0]], for a string that is not blank. *)
Definition first_token (s : string) : string :=
  take_token (Text.lstrip s).

(** Lines 132-142: the repositories read off the search hits. *)
Fixpoint repos_of (username : string) (hits : list Hit) : list Repo :=
  match hits with
  | [] => []
  | h :: r =>
      if Text.contains "/" (title h)
         && Text.contains (Text.lower username) (Text.lower (title h))
      then
        let repo_name := first_token (title h) in
        if Text.contains "/" repo_name
        then mkRepo repo_name (snippet h) :: repos_of username r
        else repos_of username r
      else repos_of username r
  end.

(** [SerperService.get_github_repos]: [search] is what the request for
    the given query yields, the ["organic"] hits of the response or an
    exception. *)
Definition get_github_repos (api_key : option string)
    (search : string -> Outcome (list Hit)) (github_url : string)
  : list Repo :=
  if negb (truthy api_key) || negb (Text.nonempty github_url) then []
  else
    let username := after_last_slash github_url in
    match search ("site:github.com " ++ dquote ++ username ++ dquote
                   ++ " repositories")%string
    with
    | Returns hits => firstn 3 (repos_of username hits)
    | Raises => []
    end.

End Serper.

(* ===================================================================== *)
(** ** langchain-interview-agent: [ResearchAgent.process] *)
(* ===================================================================== *)

Module ResearchTurn.

Import Research.

(** A dict entry read with a default: the key may be missing, hold
    [None], or hold a string. *)
Inductive Field : Type :=
| Missing
| Null
| Str (s : string).

(** [d.get(key)] *)
Definition value (f : Field) : option string :=
  match f with
  | Str s => Some s
  | Missing | Null => None
  end.

(** The keys of [cv_data] the agent reads: those of
    [contact_information] and the flat ones of the database schema. *)
Record Cv : Type := mkCv {
  contact_github : option string;
  contact_linkedin : option string;
  contact_name : Field;
  flat_github : option string;
  flat_linkedin : option string;
  flat_name : option string
}.

Record Ctx : Type := mkCtx {
  cv : Cv;
  github_verified : bool;
  linkedin_verified : bool;
  unverified_skills : json;
  discovered_projects : list json
}.

(** Which of its replies the agent gives. *)
Inductive Answer : Type :=
| Proceeding                            (* the user declines to give links *)
| CouldNotVerify (errors : list string) (* the links given did not verify *)
| VerifiedFromChat (analysis : json)
| LinksNeeded (missing : list string)
| VerifiedFromCv (analysis : json).

Record Reply : Type := mkReply {
  answer : Answer;
  context : Ctx;
  next_state : option State
}.

(** [a or b] *)
Definition or_else (a b : option string) : option string :=
  if truthy a then a else b.

(** Lines 17-23: flat keys move into [contact_information] where that has
    no value of its own. *)
Definition migrate (c : Cv) : Cv :=
  mkCv (if negb (truthy (contact_github c)) && truthy (flat_github c)
        then flat_github c else contact_github c)
       (if negb (truthy (contact_linkedin c)) && truthy (flat_linkedin c)
        then flat_linkedin c else contact_linkedin c)
       (if negb (truthy (value (contact_name c))) && truthy (flat_name c)
        then match flat_name c with
             | Some s => Str s
             | None => contact_name c
             end
        else contact_name c)
       (flat_github c) (flat_linkedin c) (flat_name c).

(** [contact.get('name', 'candidate')] *)
Definition candidate_name (c : Cv) : option string :=
  match contact_name c with
  | Missing => Some "candidate"
  | Null => None
  | Str s => Some s
  end.

(** What an f-string prints for the name. *)
Definition shown (name : option string) : string :=
  match name with
  | Some s => s
  | None => "None"
  end.

(** [link and link != "N/A"] *)
Definition usable (link : option string) : bool :=
  match link with
  | Some s => Text.nonempty s && negb (String.eqb s "N/A")
  | None => false
  end.

(** [s.rstrip('/')] *)
Fixpoint rstrip_slash (s : string) : string :=
  match s with
  | EmptyString => EmptyString
  | String c r =>
      match rstrip_slash r with
      | EmptyString => if Ascii.eqb c "/" then EmptyString
                       else String c EmptyString
      | r' => String c r'
      end
  end.

(** Lines 87-88 and 98-99: the matched text as a URL. *)
Definition as_url (matched : string) : string :=
  let url := rstrip_slash matched in
  if String.prefix "http" url then url else ("https://" ++ url)%string.

Definition declines (input_lower : string) : bool :=
  existsb (fun phrase => Text.contains phrase input_lower)
          ["don't have"; "do not have"; "no github"; "no linkedin"; "skip"].

Definition mentions_link (input_lower : string) : bool :=
  Text.contains "github.com" input_lower
  || Text.contains "linkedin.com" input_lower
  || Text.contains "http" input_lower.

Section Process.

(** The collaborators: link verification, the two regular-expression
    searches over the user's text (the matched text, if any), the
    repository search, and the analysis chain. *)
Variable verify_link : string -> option string -> bool.
Variable find_github : string -> option string.
Variable find_linkedin : string -> option string.
Variable get_github_repos : string -> list Repo.
Variable chain : Outcome json.

(** Lines 51-60. *)
Definition missing_prompts (github linkedin : option string)
    (github_ok linkedin_ok : bool) : list string :=
  (if negb (truthy github)
      || match github with Some s => String.eqb s "N/A" | None => false end
   then ["GitHub"]
   else if negb github_ok
   then ["Verified GitHub (the one on your CV couldn't be verified)"]
   else [])
  ++ (if negb (truthy linkedin)
         || match linkedin with Some s => String.eqb s "N/A" | None => false end
      then ["LinkedIn"]
      else if negb linkedin_ok
      then ["Verified LinkedIn (the one on your CV couldn't be verified)"]
      else []).

(** Lines 116-124 and 136-144: run the analysis and store its result. *)
Definition analysed (github : option string) (c : Cv)
    (github_ok linkedin_ok : bool) (from_chat : bool)
  : Outcome Reply :=
  match perform_deep_analysis get_github_repos github chain with
  | Returns (analysis, unverified, projects) =>
      Returns (mkReply
                 (if from_chat then VerifiedFromChat analysis
                  else VerifiedFromCv analysis)
                 (mkCtx c github_ok linkedin_ok unverified projects)
                 (Some KPI_CALCULATION))
  | Raises => Raises
  end.

(** [ResearchAgent.process]. *)
Definition process (user_input : string) (ctx : Ctx) : Outcome Reply :=
  let c := migrate (cv ctx) in
  let github := or_else (contact_github c) (flat_github c) in
  let linkedin := or_else (contact_linkedin c) (flat_linkedin c) in
  let name := candidate_name c in
  (* lines 31-45: links of the CV are verified once per session *)
  let github_ok :=
    if usable github && negb (github_verified ctx)
    then match github with
         | Some g => verify_link g name
         | None => false
         end
    else github_verified ctx in
  let linkedin_ok :=
    if usable linkedin && negb (linkedin_verified ctx)
    then match linkedin with
         | Some l => verify_link l name
         | None => false
         end
    else linkedin_verified ctx in
  let input_lower := Text.lower user_input in
  let missing := missing_prompts github linkedin github_ok linkedin_ok in
  if declines input_lower then
    let c' :=
      mkCv (if truthy github then contact_github c else Some "N/A")
           (if truthy linkedin then contact_linkedin c else Some "N/A")
           (contact_name c) (flat_github c) (flat_linkedin c) (flat_name c) in
    Returns (mkReply Proceeding
               (mkCtx c' github_ok linkedin_ok
                      (unverified_skills ctx) (discovered_projects ctx))
               (Some KPI_CALCULATION))
  else
    let from_chat :=
      if mentions_link input_lower then
        (* lines 86-95 *)
        let g :=
          match find_github user_input with
          | Some m => Some (as_url m, verify_link (as_url m) name)
          | None => None
          end in
        (* lines 97-106 *)
        let l :=
          match find_linkedin user_input with
          | Some m => Some (as_url m, verify_link (as_url m) name)
          | None => None
          end in
        Some (g, l)
      else None in
    let stay answer :=
      Returns (mkReply answer
                 (mkCtx c github_ok linkedin_ok
                        (unverified_skills ctx) (discovered_projects ctx))
                 None) in
    let otherwise :=
      match missing with
      | _ :: _ => stay (LinksNeeded missing)
      | [] => analysed github c github_ok linkedin_ok false
      end in
    match from_chat with
    | None => otherwise
    | Some (g, l) =>
        let g_ok := match g with Some (_, true) => true | _ => false end in
        let l_ok := match l with Some (_, true) => true | _ => false end in
        let errors :=
          (match g with
           | Some (url, false) =>
               ["GitHub link (" ++ url ++ ") could not be verified for "
                ++ shown name ++ "."]%string
           | _ => []
           end)
          ++ (match l with
              | Some (url, false) =>
                  ["LinkedIn link (" ++ url ++ ") could not be verified for "
                   ++ shown name ++ "."]%string
              | _ => []
              end) in
        let c' :=
          mkCv (match g with Some (url, true) => Some url | _ => contact_github c end)
               (match l with Some (url, true) => Some url | _ => contact_linkedin c end)
               (contact_name c) (flat_github c) (flat_linkedin c) (flat_name c) in
        let github' := match g with Some (url, true) => Some url | _ => github end in
        let github_ok' := g_ok || github_ok in
        let linkedin_ok' := l_ok || linkedin_ok in
        if g_ok || l_ok then
          analysed github' c' github_ok' linkedin_ok' true
        else
          match errors with
          | _ :: _ =>
              Returns (mkReply (CouldNotVerify errors)
                         (mkCtx c github_ok linkedin_ok
                                (unverified_skills ctx)
                                (discovered_projects ctx))
                         None)
          | [] => otherwise
          end
    end.

End Process.

End ResearchTurn.

(* ===================================================================== *)
(** ** Orchestrator: the order of the states *)
(* ===================================================================== *)

Module Progress.

(** How far along the interview a state is. *)
Definition rank (s : State) : nat :=
  match s with
  | START | RESEARCH | UNKNOWN => 0
  | KPI_CALCULATION => 1
  | INTERVIEW_START => 2
  | INTERVIEWING => 3
  | SCORING => 4
  end.

(** The turns of a sequence on which the dispatched agent returned. *)
Definition returned_turns (turns : list (Orchestrator.Env * string)) : nat :=
  length (filter (fun t => Orchestrator.returned (fst t)) turns).

Definition Agent_eqb (a b : Orchestrator.Agent) : bool :=
  match a, b with
  | Orchestrator.GreetingBot, Orchestrator.GreetingBot
  | Orchestrator.ResearchAgent, Orchestrator.ResearchAgent
  | Orchestrator.KPIAgent, Orchestrator.KPIAgent
  | Orchestrator.InterviewerAgent, Orchestrator.InterviewerAgent
  | Orchestrator.ScoreAgent, Orchestrator.ScoreAgent => true
  | _, _ => false
  end.

(** The turns of a sequence that agent [a] answered: it was dispatched
    and returned. *)
Fixpoint answered_by (a : Orchestrator.Agent)
    (turns : list (Orchestrator.Env * string)) (s : Orchestrator.Session)
  : nat :=
  match turns with
  | [] => 0
  | (e, i) :: r =>
      (if Agent_eqb (fst (Orchestrator.chat e i s)) a
          && Orchestrator.returned e
       then 1 else 0)
      + answered_by a r (snd (Orchestrator.chat e i s))
  end.

(** The session a sequence of turns leaves. *)
Definition after (turns : list (Orchestrator.Env * string))
    (s : Orchestrator.Session) : Orchestrator.Session :=
  fold_left (fun s t => snd (Orchestrator.chat (fst t) (snd t) s)) turns s.

End Progress.

(** A string that does not begin with whitespace. *)
Definition starts_clean (s : string) : Prop :=
  match s with
  | EmptyString => True
  | String c _ => Text.is_space c = false
  end.

(* ===================================================================== *)
(** * Properties *)
(* ===================================================================== *)

(** ** Normalization, phrase matching and topic tags *)

Module TextFacts.

Import Interviewer.

Lemma lower_char_idem c : Text.lower_char (Text.lower_char c) = Text.lower_char c.
Proof.
  destruct c as [[] [] [] [] [] [] [] []]; reflexivity.
Qed.

Lemma is_space_lower_char c : Text.is_space (Text.lower_char c) = Text.is_space c.
Proof.
  destruct c as [[] [] [] [] [] [] [] []]; reflexivity.
Qed.

Lemma lower_idem s : Text.lower (Text.lower s) = Text.lower s.
Proof.
  induction s as [|c s IH]; cbn; [reflexivity|].
  now rewrite lower_char_idem, IH.
Qed.

Lemma lower_app a b :
  Text.lower (a ++ b) = (Text.lower a ++ Text.lower b)%string.
Proof.
  induction a as [|c a IH]; cbn; [reflexivity|]. now rewrite IH.
Qed.

Lemma prefix_app sub post : String.prefix sub (sub ++ post) = true.
Proof.
  induction sub as [|c sub IH]; cbn; [now destruct post|].
  destruct (ascii_dec c c); [exact IH | contradiction].
Qed.

Lemma contains_app sub pre post :
  Text.contains sub (pre ++ sub ++ post) = true.
Proof.
  induction pre as [|c pre IH].
  - cbn [append]. destruct (sub ++ post)%string eqn:E;
      cbn [Text.contains]; rewrite <- E, prefix_app; reflexivity.
  - cbn [append Text.contains]. rewrite IH.
    now destruct (String.prefix _ _).
Qed.

(** Every phrase of the disengagement list is found wherever it stands in
    the input and in whatever letter case it is written. *)
Theorem every_listed_phrase_is_detected
    (signal written before after : string) :
  In signal unknown_signals ->
  Text.lower written = signal ->
  is_unknown (before ++ written ++ after) = true.
Proof.
  intros Hin Hw. unfold is_unknown. apply existsb_exists.
  exists signal. split; [exact Hin|].
  rewrite !lower_app, Hw. apply contains_app.
Qed.

Lemma every_listed_phrase_is_detected_witness :
  is_unknown ("Honestly, I " ++ "HAVEN'T used" ++ " it in production")
  = true.
Proof.
  apply (every_listed_phrase_is_detected "haven't used" "HAVEN'T used"
           "Honestly, I " " it in production").
  - cbn. tauto.
  - reflexivity.
Defined.

(** *** [strip] and [normalize] *)

Lemma lstrip_starts_clean s : starts_clean (Text.lstrip s).
Proof.
  induction s as [|c s IH]; cbn; [exact I|].
  destruct (Text.is_space c) eqn:E; [exact IH | exact E].
Qed.

Lemma lstrip_rstrip_clean s :
  starts_clean s -> Text.lstrip (Text.rstrip s) = Text.rstrip s.
Proof.
  destruct s as [|c s]; cbn; [reflexivity|]. intros Hc.
  destruct (Text.rstrip s); rewrite ?Hc; cbn; rewrite Hc; reflexivity.
Qed.

Lemma rstrip_idem s : Text.rstrip (Text.rstrip s) = Text.rstrip s.
Proof.
  induction s as [|c s IH]; [reflexivity|].
  cbn [Text.rstrip]. destruct (Text.rstrip s) as [|d r] eqn:E.
  - destruct (Text.is_space c) eqn:Hc; cbn; [reflexivity|].
    now rewrite Hc.
  - cbn [Text.rstrip] in *. rewrite IH. reflexivity.
Qed.

Lemma strip_idem s : Text.strip (Text.strip s) = Text.strip s.
Proof.
  unfold Text.strip.
  rewrite (lstrip_rstrip_clean _ (lstrip_starts_clean s)).
  apply rstrip_idem.
Qed.

Lemma lstrip_lower s : Text.lstrip (Text.lower s) = Text.lower (Text.lstrip s).
Proof.
  induction s as [|c s IH]; cbn; [reflexivity|].
  rewrite is_space_lower_char.
  destruct (Text.is_space c); [exact IH | reflexivity].
Qed.

Lemma rstrip_lower s : Text.rstrip (Text.lower s) = Text.lower (Text.rstrip s).
Proof.
  induction s as [|c s IH]; cbn; [reflexivity|].
  rewrite IH, is_space_lower_char.
  destruct (Text.rstrip s); cbn; [|reflexivity].
  destruct (Text.is_space c); reflexivity.
Qed.

Lemma strip_lower s : Text.strip (Text.lower s) = Text.lower (Text.strip s).
Proof. unfold Text.strip. now rewrite lstrip_lower, rstrip_lower. Qed.

(** [normalize] is idempotent, and a name that differs from another only
    in letter case or in surrounding whitespace normalizes to the same
    string. *)
Theorem normalize_is_canonical (name : string) :
  normalize (normalize name) = normalize name
  /\ normalize (Text.lower name) = normalize name
  /\ normalize (Text.strip name) = normalize name.
Proof.
  unfold normalize. repeat split.
  - now rewrite strip_lower, strip_idem, lower_idem.
  - now rewrite strip_lower, lower_idem.
  - now rewrite strip_idem.
Qed.

(** *** Topic tags *)

Lemma split_nonempty s : Text.split_colon_space s <> [].
Proof.
  destruct s as [|c r]; cbn; [discriminate|].
  destruct r as [|d r'].
  - destruct (Text.split_colon_space ""); discriminate.
  - destruct (_ && _); [discriminate|].
    destruct (Text.split_colon_space (String d r')); discriminate.
Qed.

Lemma last_cons_nonempty (x : string) l d : l <> [] -> last (x :: l) d = last l d.
Proof. destruct l; [congruence | reflexivity]. Qed.

Lemma split_cons c r :
  Text.split_colon_space (String c r)
  = match r with
    | String d r' =>
        if Ascii.eqb c ":" && Ascii.eqb d " "
        then EmptyString :: Text.split_colon_space r'
        else match Text.split_colon_space r with
             | seg :: segs => String c seg :: segs
             | [] => [String c EmptyString]
             end
    | EmptyString => [String c EmptyString]
    end.
Proof. destruct r; reflexivity. Qed.

Lemma last_app_nonempty (l0 l : list string) d :
  l <> [] -> last (l0 ++ l) d = last l d.
Proof.
  intros Hl. induction l0 as [|x l0 IH]; [reflexivity|].
  cbn [app]. rewrite last_cons_nonempty; [exact IH|].
  destruct l0; [exact Hl | discriminate].
Qed.

(** The segments of the name are the last segments of the tagged string. *)
Lemma split_after_separator name tag :
  exists p pre,
    Text.split_colon_space (tag ++ ": " ++ name)
    = p :: pre ++ Text.split_colon_space name.
Proof.
  remember (String.length tag) as n eqn:Hn.
  revert tag Hn. induction n as [n IH] using lt_wf_ind. intros tag Hn.
  destruct tag as [|c [|d tag]].
  - exists EmptyString, []. reflexivity.
  - exists (String c EmptyString), [].
    change (String c "" ++ ": " ++ name)%string
      with (String c (String ":" (String " " name))).
    rewrite split_cons.
    replace (Ascii.eqb c ":" && Ascii.eqb ":" " ") with false
      by (now rewrite andb_false_r).
    change (Text.split_colon_space (String ":" (String " " name)))
      with (EmptyString :: Text.split_colon_space name).
    reflexivity.
  - change (String c (String d tag) ++ ": " ++ name)%string
      with (String c (String d (tag ++ ": " ++ name))).
    rewrite split_cons. destruct (_ && _).
    + destruct (IH (String.length tag)) with (tag := tag)
        as (p & pre & ->); [subst n; cbn; lia | reflexivity |].
      exists EmptyString, (p :: pre). reflexivity.
    + destruct (IH (String.length (String d tag))) with (tag := String d tag)
        as (p & pre & Hs); [subst n; cbn; lia | reflexivity |].
      change (String d tag ++ ": " ++ name)%string
        with (String d (tag ++ ": " ++ name)) in Hs.
      rewrite Hs. exists (String c p), pre. reflexivity.
Qed.

(** Whatever precedes a separator is dropped from the topic name. *)
Lemma topic_name_after_separator tag name :
  topic_name (tag ++ ": " ++ name) = topic_name name.
Proof.
  unfold topic_name.
  destruct (split_after_separator name tag) as (p & pre & ->).
  change (p :: pre ++ Text.split_colon_space name)
    with ((p :: pre) ++ Text.split_colon_space name).
  apply last_app_nonempty, split_nonempty.
Qed.

Lemma split_without_separator s :
  Text.contains ": " s = false -> Text.split_colon_space s = [s].
Proof.
  induction s as [|c s IH]; [reflexivity|].
  cbn [Text.contains]. destruct (String.prefix ": " (String c s)) eqn:Hp;
    [discriminate|].
  intros Hc. rewrite split_cons, (IH Hc).
  destruct s as [|d s']; [reflexivity|].
  replace (Ascii.eqb c ":" && Ascii.eqb d " ") with false; [reflexivity|].
  symmetry. apply andb_false_iff.
  destruct (Ascii.eqb_spec c ":") as [->|]; [|auto].
  destruct (Ascii.eqb_spec d " ") as [->|]; [|auto].
  cbn in Hp. destruct s'; discriminate Hp.
Qed.

(** Tag and name round trip: the name retired for a topic is what follows
    the last [": "] of the topic string.  For a topic the selector builds
    from a name without that separator it is the name itself. *)
Theorem topic_name_of_tagged (tag name : string) :
  Text.contains ": " name = false ->
  topic_name (tag ++ ": " ++ name) = name.
Proof.
  intros H. rewrite topic_name_after_separator. unfold topic_name.
  now rewrite (split_without_separator name H).
Qed.

Lemma topic_name_of_tagged_witness :
  topic_name "Verified Skill: Apache Kafka" = "Apache Kafka".
Proof.
  exact (topic_name_of_tagged "Verified Skill" "Apache Kafka" eq_refl).
Defined.

End TextFacts.

(** ** The topic selector *)

Module SelectorFacts.

Import Interviewer.

Arguments is_unknown : simpl never.
Arguments is_unverified_topic : simpl never.
Arguments topic_name : simpl never.
Arguments normalize : simpl never.

(** Selection writes the topic, the turn count and the state only. *)
Lemma select_frame c :
  let c' := fst (select c) in
  covered_topics c' = covered_topics c
  /\ unverified_asked c' = unverified_asked c
  /\ projects_asked c' = projects_asked c
  /\ unverified_skills c' = unverified_skills c
  /\ discovered_projects c' = discovered_projects c
  /\ cv_skills c' = cv_skills c
  /\ topic_turns c' = 1
  /\ state c' = INTERVIEWING.
Proof.
  unfold select.
  destruct (_ && _).
  - cbn. tauto.
  - destruct (filter _ _); [destruct (verified_skills c)|]; cbn; tauto.
Qed.

(** The forced-transition phase leaves the pools and the state alone. *)
Lemma transition_frame i c :
  let c' := fst (transition i c) in
  unverified_skills c' = unverified_skills c
  /\ discovered_projects c' = discovered_projects c
  /\ cv_skills c' = cv_skills c
  /\ state c' = state c.
Proof.
  unfold transition, retire.
  destruct (current_topic c) as [t|]; cbn; [|tauto].
  destruct (_ && _); cbn; [|tauto].
  destruct (Text.mem _ _); cbn; tauto.
Qed.

Lemma select_unverified_iff c :
  (exists skill, snd (select c) = SelUnverified skill)
  <-> (unverified_asked c < length (unverified_skills c)
       /\ projects_asked c = unverified_asked c * 2).
Proof.
  unfold select.
  destruct (unverified_asked c <? length (unverified_skills c)) eqn:Hv;
    destruct (projects_asked c =? unverified_asked c * 2) eqn:Hp; cbn.
  - apply Nat.ltb_lt in Hv. apply Nat.eqb_eq in Hp.
    split; [tauto | intros _; eexists; reflexivity].
  - apply Nat.eqb_neq in Hp.
    split; [intros [k Hk] | tauto].
    destruct (filter _ _); [destruct (verified_skills c)|]; discriminate.
  - apply Nat.ltb_ge in Hv.
    split; [intros [k Hk] | lia].
    destruct (filter _ _); [destruct (verified_skills c)|]; discriminate.
  - apply Nat.ltb_ge in Hv.
    split; [intros [k Hk] | lia].
    destruct (filter _ _); [destruct (verified_skills c)|]; discriminate.
Qed.

Lemma select_unverified_skill c skill :
  snd (select c) = SelUnverified skill ->
  nth_error (unverified_skills c) (unverified_asked c) = Some skill
  /\ current_topic (fst (select c))
     = Some ("Unverified: " ++ skill)%string.
Proof.
  intros H.
  assert (Hc : unverified_asked c < length (unverified_skills c)
               /\ projects_asked c = unverified_asked c * 2)
    by (apply select_unverified_iff; eauto).
  destruct Hc as [Hv Hp].
  revert H. unfold select.
  apply Nat.ltb_lt in Hv as Hv'. apply Nat.eqb_eq in Hp as Hp'.
  rewrite Hv', Hp'. cbn. intros H. injection H as <-.
  split; [|reflexivity].
  apply nth_error_nth'. exact Hv.
Qed.

(** graph.py: the node picks the unverified branch as soon as
    [projects_asked] has reached twice [unverified_asked]. *)
Lemma graph_pick_unverified_iff s :
  truthy (Graph.g_current_topic s) = false ->
  (exists skill, Graph.pick_topic s = Returns ("Unverified: " ++ skill)%string)
  <-> (Graph.g_unverified_asked s < length (Graph.g_unverified_skills s)
       /\ Graph.g_unverified_asked s * 2 <= Graph.g_projects_asked s).
Proof.
  intros Ht. unfold Graph.pick_topic.
  destruct (Graph.g_current_topic s) as [[|a r]|]; try discriminate Ht.
  all: destruct (Nat.ltb_spec (Graph.g_unverified_asked s)
                   (length (Graph.g_unverified_skills s))) as [Hv|Hv];
    destruct (Nat.ltb_spec (Graph.g_projects_asked s)
                (Graph.g_unverified_asked s * 2)) as [Hp|Hp]; cbn.
  all: split; [intros [k Hk] | intros [H1 H2]];
    try (split; lia); try lia; try (eexists; reflexivity).
  all: destruct (Graph.names _) as [ns|]; try discriminate;
    destruct (filter _ ns) as [|[n|] ?]; discriminate.
Qed.

End SelectorFacts.

(** ** The topic ledger over sessions *)

Module LedgerFacts.

Import Interviewer InterviewerSession.

Arguments is_unknown : simpl never.
Arguments is_unverified_topic : simpl never.
Arguments topic_name : simpl never.
Arguments normalize : simpl never.

Lemma mem_In x l : Text.mem x l = true <-> In x l.
Proof.
  unfold Text.mem. rewrite existsb_exists. split.
  - intros [y [Hy He]]. apply String.eqb_eq in He. now subst.
  - intros H. exists x. split; [exact H | apply String.eqb_refl].
Qed.

Lemma mem_not_In x l : Text.mem x l = false <-> ~ In x l.
Proof.
  rewrite <- mem_In. destruct (Text.mem x l); split; congruence.
Qed.

Lemma unverified_tag skill :
  is_unverified_topic ("Unverified: " ++ skill)%string = true.
Proof. reflexivity. Qed.

Lemma run_snoc inputs i c :
  run (inputs ++ [i]) c = fst (process i (run inputs c)).
Proof. unfold run. now rewrite fold_left_app. Qed.

(** The turn as its two phases. *)
Lemma process_phases i c :
  fst (process i c)
  = if State_eqb (state c) INTERVIEW_START
       || negb (truthy (current_topic (fst (transition i c))))
    then fst (select (fst (transition i c)))
    else fst (transition i c).
Proof.
  unfold process. destruct (transition i c) as [c1 h]. cbn.
  destruct (_ || _); [destruct (select c1)|]; reflexivity.
Qed.

Lemma process_pools i c :
  unverified_skills (fst (process i c)) = unverified_skills c
  /\ discovered_projects (fst (process i c)) = discovered_projects c
  /\ cv_skills (fst (process i c)) = cv_skills c.
Proof.
  rewrite process_phases.
  destruct (SelectorFacts.transition_frame i c) as (H1 & H2 & H3 & _).
  destruct (_ || _); [|tauto].
  destruct (SelectorFacts.select_frame (fst (transition i c)))
    as (_ & _ & _ & G1 & G2 & G3 & _).
  cbv zeta in *. rewrite G1, G2, G3. tauto.
Qed.

Lemma run_pools inputs c :
  unverified_skills (run inputs c) = unverified_skills c.
Proof.
  induction inputs as [|i inputs IH] using rev_ind; [reflexivity|].
  rewrite run_snoc. destruct (process_pools i (run inputs c)) as [H _].
  now rewrite H.
Qed.

(** *** The 1:2 ratio *)

Lemma transition_ratio i c :
  ratio_ok c -> ratio_ok (fst (transition i c)).
Proof.
  intros [H1 H2]. unfold transition.
  destruct (current_topic c) as [t|] eqn:Ht.
  - destruct (force_transition _ _ _ && truthy (Some t)) eqn:Hf; cbn.
    + apply andb_prop in Hf as [_ Htr].
      split; [|intros t' Hn; discriminate Hn].
      unfold retire. destruct (Text.mem _ _); cbn; [exact H1|].
      destruct (is_unverified_topic t) eqn:Hu.
      * lia.
      * specialize (H2 t eq_refl Htr Hu). lia.
    + split; [exact H1|].
      intros t' Hn. injection Hn as <-. now apply H2.
  - cbn. split; [exact H1 | intros t' Hn; discriminate Hn].
Qed.

Lemma select_ratio c :
  ratio_ok c -> ratio_ok (fst (select c)).
Proof.
  intros [H1 H2]. unfold select.
  destruct (Nat.ltb_spec (unverified_asked c)
              (length (unverified_skills c))) as [Hv|Hv];
    destruct (Nat.eqb_spec (projects_asked c) (unverified_asked c * 2))
      as [Hp|Hp]; cbn.
  1: { split; [exact H1|]. intros t Ht _ Hu. injection Ht as <-.
       change (is_unverified_topic
                 ("Unverified: "
                  ++ nth (unverified_asked c) (unverified_skills c) "")%string
               = false) in Hu.
       rewrite unverified_tag in Hu. discriminate Hu. }
  all: destruct (filter _ _);
    [destruct (verified_skills c)|]; cbn; (split; [exact H1|]).
  all: try (intros t Ht Htr Hu; apply (H2 t Ht Htr Hu)).
  all: intros t _ _ _; unfold set_topic, set_state; cbn; lia.
Qed.

Lemma process_ratio i c :
  ratio_ok c -> ratio_ok (fst (process i c)).
Proof.
  intros H. rewrite process_phases.
  destruct (_ || _); [apply select_ratio|]; now apply transition_ratio.
Qed.

Lemma run_ratio inputs c :
  ratio_ok c -> ratio_ok (run inputs c).
Proof.
  intros H. induction inputs as [|i inputs IH] using rev_ind; [exact H|].
  rewrite run_snoc. now apply process_ratio.
Qed.

(** *** Sessions with failed calls *)

Lemma session_snoc turns t c :
  session (turns ++ [t]) c = step (fst t) (snd t) (session turns c).
Proof. unfold session. now rewrite fold_left_app. Qed.

Lemma all_returned_snoc turns t :
  all_returned (turns ++ [t]) = all_returned turns && returns (snd t).
Proof.
  unfold all_returned. rewrite forallb_app. cbn. now rewrite andb_true_r.
Qed.

(** A session in which every call returned is a run of its inputs. *)
Lemma session_returned turns c :
  all_returned turns = true -> session turns c = run (map fst turns) c.
Proof.
  induction turns as [|t turns IH] using rev_ind; [reflexivity|].
  rewrite all_returned_snoc. intros H. apply andb_prop in H as [Ha Hr].
  rewrite session_snoc, map_app, (IH Ha). cbn [map]. rewrite run_snoc.
  destruct (snd t); [reflexivity | discriminate Hr].
Qed.

(** What a turn whose call raises leaves in the session. *)
Lemma raising_turn i c :
  let c1 := fst (transition i c) in
  let c' := process_raising i c in
  covered_topics c' = covered_topics c1
  /\ topic_turns c' = topic_turns c
  /\ unverified_asked c' = unverified_asked c
  /\ projects_asked c' = projects_asked c
  /\ unverified_skills c' = unverified_skills c
  /\ discovered_projects c' = discovered_projects c
  /\ cv_skills c' = cv_skills c
  /\ current_topic c'
     = (if selector_runs i c
        then current_topic (fst (select c1)) else current_topic c).
Proof.
  unfold process_raising, selector_runs.
  destruct (_ || _); cbn; tauto.
Qed.

Lemma step_pools i llm c :
  unverified_skills (step i llm c) = unverified_skills c
  /\ discovered_projects (step i llm c) = discovered_projects c
  /\ cv_skills (step i llm c) = cv_skills c.
Proof.
  destruct llm as [r|]; cbn [step].
  - apply process_pools.
  - destruct (raising_turn i c) as (_ & _ & _ & _ & H1 & H2 & H3 & _).
    auto.
Qed.

Lemma session_pools turns c :
  unverified_skills (session turns c) = unverified_skills c.
Proof.
  induction turns as [|t turns IH] using rev_ind; [reflexivity|].
  rewrite session_snoc.
  destruct (step_pools (fst t) (snd t) (session turns c)) as [H _].
  now rewrite H.
Qed.

(** C2 (as amended).  In every session state reached by interviewer turns
    whose language-model calls all returned and in which unverified
    skills remain ([unverified_asked < len(unverified_skills)]),
    [projects_asked] is at most [unverified_asked * 2] (hence at most
    [unverified_asked * 2 + 2]). *)
Theorem ratio_while_unverified_remain
    (st : State) (skills unverified : list string)
    (projects : list Project) (turns : list (string * Outcome string)) :
  let c := session turns (initial st skills unverified projects) in
  all_returned turns = true ->
  unverified_asked c < length (unverified_skills c) ->
  projects_asked c <= unverified_asked c * 2.
Proof.
  intros c Hret Hrem. subst c. rewrite (session_returned _ _ Hret) in *.
  assert (H : ratio_ok (run (map fst turns)
                            (initial st skills unverified projects))).
  { apply run_ratio. split; cbn; [left; lia | intros t Ht; discriminate]. }
  destruct H as [[H|H] _]; lia.
Qed.

Lemma ratio_while_unverified_remain_witness :
  let turns := [("ok", Returns "Tell me about Kubernetes.");
                ("skip", Returns "Then tell me about PayAPI.");
                ("skip", Returns "Then tell me about Scraper.")] in
  let c := session turns
             (initial INTERVIEW_START [] ["Kubernetes"; "Kafka"]
                      [PDict (Some "PayAPI") None;
                       PDict (Some "Scraper") None]) in
  all_returned turns = true
  /\ unverified_asked c < length (unverified_skills c)
  /\ projects_asked c <= unverified_asked c * 2.
Proof.
  cbv zeta.
  assert (Hr : all_returned
                 [("ok", Returns "Tell me about Kubernetes.");
                  ("skip", Returns "Then tell me about PayAPI.");
                  ("skip", Returns "Then tell me about Scraper.")] = true)
    by reflexivity.
  assert (H : unverified_asked
                (session
                   [("ok", Returns "Tell me about Kubernetes.");
                    ("skip", Returns "Then tell me about PayAPI.");
                    ("skip", Returns "Then tell me about Scraper.")]
                   (initial INTERVIEW_START [] ["Kubernetes"; "Kafka"]
                      [PDict (Some "PayAPI") None;
                       PDict (Some "Scraper") None]))
              < length (unverified_skills
                (session
                   [("ok", Returns "Tell me about Kubernetes.");
                    ("skip", Returns "Then tell me about PayAPI.");
                    ("skip", Returns "Then tell me about Scraper.")]
                   (initial INTERVIEW_START [] ["Kubernetes"; "Kafka"]
                      [PDict (Some "PayAPI") None;
                       PDict (Some "Scraper") None])))).
  { vm_compute. lia. }
  split; [exact Hr|]. split; [exact H|].
  exact (ratio_while_unverified_remain INTERVIEW_START []
           ["Kubernetes"; "Kafka"]
           [PDict (Some "PayAPI") None; PDict (Some "Scraper") None]
           [("ok", Returns "Tell me about Kubernetes.");
            ("skip", Returns "Then tell me about PayAPI.");
            ("skip", Returns "Then tell me about Scraper.")] Hr H).
Defined.

(** C2 (as stated) fails, in two ways.  With no unverified skill and three
    discovered projects, three skipped project topics give
    [projects_asked = 3], which exceeds [unverified_asked * 2 + 2 = 2],
    although every call returned.  And with an unverified skill still to
    ask, one turn whose call raises (the second, which retires
    "Kubernetes" without storing its counter) lets the following skips
    count three projects while [unverified_asked] is still 0. *)
Lemma projects_exceed_ratio_bound :
  (let turns := [("ok", Returns "Tell me about PayAPI.");
                 ("skip", Returns "Then tell me about Scraper.");
                 ("skip", Returns "Then tell me about Indexer.");
                 ("skip", Returns "Tell me about an achievement.")] in
   let c := session turns
              (initial INTERVIEW_START [] []
                       [PDict (Some "PayAPI") None;
                        PDict (Some "Scraper") None;
                        PDict (Some "Indexer") None]) in
   all_returned turns = true
   /\ ~ projects_asked c <= unverified_asked c * 2 + 2)
  /\ (let turns := [("ok", Returns "Tell me about Kubernetes.");
                    ("skip", Raises);
                    ("skip", Returns "Then tell me about Scraper.");
                    ("skip", Returns "Then tell me about Indexer.");
                    ("skip", Returns "Tell me about an achievement.")] in
      let c := session turns
                 (initial INTERVIEW_START [] ["Kubernetes"; "Kafka"]
                          [PDict (Some "PayAPI") None;
                           PDict (Some "Scraper") None;
                           PDict (Some "Indexer") None]) in
      unverified_asked c < length (unverified_skills c)
      /\ ~ projects_asked c <= unverified_asked c * 2 + 2).
Proof. vm_compute. repeat split; try lia; auto. Qed.

End LedgerFacts.

(** ** The condition for an unverified-skill topic *)

Module RatioSelection.

Import Interviewer InterviewerSession LedgerFacts.

Arguments is_unknown : simpl never.
Arguments is_unverified_topic : simpl never.
Arguments topic_name : simpl never.
Arguments normalize : simpl never.

Lemma graph_session_snoc replies r s :
  GraphSession.run (replies ++ [r]) s
  = GraphSession.step r (GraphSession.run replies s).
Proof. unfold GraphSession.run. now rewrite fold_left_app. Qed.

(** A project topic is only picked when counting it keeps the ratio. *)
Lemma pick_topic_ratio s topic :
  GraphSession.ratio_ok s ->
  Graph.pick_topic s = Returns topic ->
  Text.nonempty topic = true ->
  is_unverified_topic topic = false ->
  Graph.g_projects_asked s < Graph.g_unverified_asked s * 2
  \/ length (Graph.g_unverified_skills s) <= Graph.g_unverified_asked s.
Proof.
  intros [H1 H2]. unfold Graph.pick_topic.
  destruct (Graph.g_current_topic s) as [[|a r]|] eqn:Ht.
  2: { intros Heq Hn Hu. injection Heq as <-. now apply (H2 _ eq_refl). }
  all: destruct (Nat.ltb_spec (Graph.g_unverified_asked s)
                   (length (Graph.g_unverified_skills s))) as [Hv|Hv];
    destruct (Nat.ltb_spec (Graph.g_projects_asked s)
                (Graph.g_unverified_asked s * 2)) as [Hp|Hp];
    cbn [andb negb orb]; intros Heq Hn Hu; try lia.
  all: match type of Heq with
       | Returns ?x = Returns _ =>
           assert (E : topic = x) by congruence; rewrite E in Hu
       end.
  all: rewrite unverified_tag in Hu; discriminate Hu.
Qed.

Lemma settle_ratio response topic s :
  GraphSession.ratio_ok s ->
  (Text.nonempty topic = true ->
   is_unverified_topic topic = false ->
   Graph.g_projects_asked s < Graph.g_unverified_asked s * 2
   \/ length (Graph.g_unverified_skills s) <= Graph.g_unverified_asked s) ->
  GraphSession.ratio_ok (Graph.settle response topic s).
Proof.
  intros [H1 H2] Hpick. unfold Graph.settle.
  destruct (Text.contains _ _).
  - destruct (Text.nonempty topic) eqn:Hn.
    + split; [|intros t Ht; discriminate Ht]. cbn.
      destruct (is_unverified_topic topic) eqn:Hu; [lia|].
      specialize (Hpick eq_refl eq_refl). lia.
    + split; [exact H1 | intros t Ht; discriminate Ht].
  - split; [exact H1|]. cbn. intros t Ht. injection Ht as <-. exact Hpick.
Qed.

Lemma graph_step_ratio r s :
  GraphSession.ratio_ok s -> GraphSession.ratio_ok (GraphSession.step r s).
Proof.
  intros H. unfold GraphSession.step, Graph.interviewer_node.
  destruct r as [response|]; [|exact H].
  destruct (Graph.pick_topic s) as [topic|] eqn:Hp; [|exact H].
  destruct (Graph.project_list _); [|exact H].
  apply settle_ratio; [exact H|]. now apply pick_topic_ratio.
Qed.

Lemma graph_run_ratio replies unverified projects :
  GraphSession.ratio_ok
    (GraphSession.run replies (GraphSession.initial unverified projects)).
Proof.
  induction replies as [|r replies IH] using rev_ind.
  - split; cbn; [left; lia | intros t Ht; discriminate Ht].
  - rewrite graph_session_snoc. now apply graph_step_ratio.
Qed.

(** C1.  On every turn of [InterviewerAgent.process] on which the selector
    runs, it activates an unverified-skill topic if and only if
    [unverified_asked < len(unverified_skills)] and
    [projects_asked == unverified_asked * 2], with the counters as they
    stand at selection (the ones a returned turn stores), and the skill is
    [unverified_skills[unverified_asked]]; the topic is stored whether
    the language-model call then returns or raises.  In graph.py's
    [interviewer_node], whose test is written
    [projects_asked >= unverified_asked * 2], the same holds in every
    state the node can be in: whatever the replies so far, with no active
    topic it picks an unverified skill exactly under the two conditions,
    and the skill is [unverified_skills[unverified_asked]]. *)
Theorem selector_unverified_condition :
  (forall user_input c,
      selector_runs user_input c = true ->
      let c1 := fst (transition user_input c) in
      let c' := fst (process user_input c) in
      selected (snd (process user_input c)) = Some (snd (select c1))
      /\ unverified_asked c' = unverified_asked c1
      /\ projects_asked c' = projects_asked c1
      /\ unverified_skills c' = unverified_skills c1
      /\ ((exists skill, snd (select c1) = SelUnverified skill)
          <-> (unverified_asked c1 < length (unverified_skills c1)
               /\ projects_asked c1 = unverified_asked c1 * 2))
      /\ (forall skill,
             snd (select c1) = SelUnverified skill ->
             nth_error (unverified_skills c1) (unverified_asked c1)
             = Some skill
             /\ forall llm,
                 current_topic (step user_input llm c)
                 = Some ("Unverified: " ++ skill)%string))
  /\ (forall unverified projects replies,
        let s := GraphSession.run replies
                   (GraphSession.initial unverified projects) in
        truthy (Graph.g_current_topic s) = false ->
        ((exists skill,
             Graph.pick_topic s = Returns ("Unverified: " ++ skill)%string)
         <-> (Graph.g_unverified_asked s
              < length (Graph.g_unverified_skills s)
              /\ Graph.g_projects_asked s = Graph.g_unverified_asked s * 2))
        /\ (forall skill,
               Graph.pick_topic s
               = Returns ("Unverified: " ++ skill)%string ->
               nth_error (Graph.g_unverified_skills s)
                         (Graph.g_unverified_asked s) = Some skill)).
Proof.
  split.
  - intros i c Hrun c1 c'.
    assert (Hp : process i c
                 = (fst (select c1),
                    mkTurn (snd (transition i c)) (Some (snd (select c1))))).
    { unfold process. subst c1. unfold selector_runs in Hrun.
      destruct (transition i c) as [d hint]. cbn in Hrun |- *.
      rewrite Hrun. now destruct (select d). }
    subst c'. rewrite Hp. cbn [fst snd selected].
    destruct (SelectorFacts.select_frame c1) as (_ & Hu & Hq & Hk & _).
    cbv zeta in Hu, Hq, Hk.
    split; [reflexivity|]. split; [exact Hu|]. split; [exact Hq|].
    split; [exact Hk|].
    split; [apply SelectorFacts.select_unverified_iff|].
    intros skill Hs.
    destruct (SelectorFacts.select_unverified_skill c1 skill Hs) as [Hn Ht].
    split; [exact Hn|].
    intros [r|]; cbn [step].
    + rewrite Hp. exact Ht.
    + destruct (raising_turn i c) as (_ & _ & _ & _ & _ & _ & _ & Hc).
      cbv zeta in Hc. rewrite Hc, Hrun. exact Ht.
  - intros unverified projects replies s Ht.
    destruct (graph_run_ratio replies unverified projects) as [H1 _].
    fold s in H1.
    pose proof (SelectorFacts.graph_pick_unverified_iff s Ht) as Hiff.
    assert (Hiff' :
              (exists skill,
                  Graph.pick_topic s
                  = Returns ("Unverified: " ++ skill)%string)
              <-> Graph.g_unverified_asked s
                  < length (Graph.g_unverified_skills s)
                  /\ Graph.g_projects_asked s
                     = Graph.g_unverified_asked s * 2).
    { rewrite Hiff. split; intros [Ha Hb]; (split; [exact Ha | lia]). }
    split; [exact Hiff'|].
    intros skill H.
    assert (Hc : Graph.g_unverified_asked s
                 < length (Graph.g_unverified_skills s)
                 /\ Graph.g_projects_asked s
                    = Graph.g_unverified_asked s * 2)
      by (apply Hiff'; eauto).
    destruct Hc as [Hv Hq]. revert H. unfold Graph.pick_topic.
    destruct (Graph.g_current_topic s) as [[|a r]|]; try discriminate Ht.
    all: destruct (Nat.ltb_spec (Graph.g_unverified_asked s)
                     (length (Graph.g_unverified_skills s))) as [_|Hge];
      [|lia];
      destruct (Nat.ltb_spec (Graph.g_projects_asked s)
                  (Graph.g_unverified_asked s * 2)) as [Hlt|_]; [lia|]; cbn.
    all: intros Heq; injection Heq as <-; apply nth_error_nth'; exact Hv.
Qed.

(** The second unverified skill is activated once two projects have been
    counted after the first, by the agent (here on a turn whose call
    raises) and by the graph node. *)
Lemma selector_unverified_condition_witness :
  let c := run ["ok"; "skip"; "skip"]
               (initial INTERVIEW_START [] ["Kubernetes"; "Kafka"]
                        [PDict (Some "PayAPI") None;
                         PDict (Some "Scraper") None]) in
  let s := GraphSession.run
             [Returns "Let us begin."; Returns "Fine, moving on.";
              Raises; Returns "Good. Moving on.";
              Returns "Moving on to the next area."]
             (GraphSession.initial ["Kubernetes"; "Kafka"]
                [PDict (Some "PayAPI") None;
                 PDict (Some "Scraper") None]) in
  current_topic (step "skip" Raises c) = Some "Unverified: Kafka"
  /\ nth_error (Graph.g_unverified_skills s) (Graph.g_unverified_asked s)
     = Some "Kafka".
Proof.
  cbv zeta. split.
  - apply (proj1 selector_unverified_condition "skip"
             (run ["ok"; "skip"; "skip"]
                (initial INTERVIEW_START [] ["Kubernetes"; "Kafka"]
                   [PDict (Some "PayAPI") None;
                    PDict (Some "Scraper") None]))).
    + vm_compute. reflexivity.
    + vm_compute. reflexivity.
  - apply (proj2 selector_unverified_condition
             ["Kubernetes"; "Kafka"]
             [PDict (Some "PayAPI") None; PDict (Some "Scraper") None]
             [Returns "Let us begin."; Returns "Fine, moving on.";
              Raises; Returns "Good. Moving on.";
              Returns "Moving on to the next area."]).
    + vm_compute. reflexivity.
    + vm_compute. reflexivity.
Defined.

End RatioSelection.

(** ** Covered topics and the turn counter *)

Module CoverageFacts.

Import Interviewer InterviewerSession LedgerFacts.

Arguments is_unknown : simpl never.
Arguments is_unverified_topic : simpl never.
Arguments topic_name : simpl never.
Arguments normalize : simpl never.

Lemma retire_nodup t c :
  NoDup (normalized_covered c) -> NoDup (normalized_covered (retire t c)).
Proof.
  intros H. unfold retire.
  destruct (Text.mem _ _) eqn:Hm; [exact H|].
  unfold normalized_covered in *. cbn. rewrite map_app. cbn.
  apply mem_not_In in Hm.
  apply NoDup_rev in H. rewrite <- (rev_involutive (_ ++ _)).
  apply NoDup_rev. rewrite rev_app_distr. cbn.
  constructor; [|exact H]. now rewrite <- in_rev.
Qed.

Lemma transition_nodup i c :
  NoDup (normalized_covered c) ->
  NoDup (normalized_covered (fst (transition i c))).
Proof.
  intros H. unfold transition. destruct (current_topic c) as [t|]; [|exact H].
  destruct (_ && _); [|exact H].
  now apply (retire_nodup t c).
Qed.

Lemma process_nodup i c :
  NoDup (normalized_covered c) ->
  NoDup (normalized_covered (fst (process i c))).
Proof.
  intros H. pose proof (transition_nodup i c H) as Ht.
  rewrite process_phases. destruct (_ || _); [|exact Ht].
  destruct (SelectorFacts.select_frame (fst (transition i c))) as (Hc & _).
  unfold normalized_covered in *. cbv zeta in Hc. now rewrite Hc.
Qed.

(** No two entries of [covered_topics] share a normalized name, in any
    session, whether or not its language-model calls returned. *)
Lemma covered_nodup st skills unverified projects turns :
  NoDup (normalized_covered
           (session turns (initial st skills unverified projects))).
Proof.
  induction turns as [|t turns IH] using rev_ind; [constructor|].
  rewrite session_snoc. destruct (snd t) as [r|]; cbn [step].
  - now apply process_nodup.
  - destruct (raising_turn (fst t)
                (session turns (initial st skills unverified projects)))
      as (Hc & _).
    cbv zeta in Hc. unfold normalized_covered at 1. rewrite Hc.
    now apply transition_nodup.
Qed.

(** The project and verified-skill branches never pick a covered name. *)
Lemma select_project_fresh c p :
  snd (select c) = SelProject p ->
  exists n, project_name p = Some n
            /\ ~ In (normalize n) (normalized_covered c).
Proof.
  unfold select. destruct (_ && _); [discriminate|].
  destruct (filter _ _) as [|q l] eqn:Hf;
    [destruct (verified_skills c); discriminate|].
  cbn. intros H. injection H as <-.
  assert (Hin : In q (filter (project_available (normalized_covered c))
                             (discovered_projects c)))
    by (rewrite Hf; now left).
  apply filter_In in Hin as [_ Hq]. unfold project_available in Hq.
  destruct (project_name q) as [n|]; [|discriminate].
  exists n. split; [reflexivity|].
  apply andb_prop in Hq as [_ Hq]. apply negb_true_iff in Hq.
  now apply mem_not_In.
Qed.

Lemma select_verified_fresh c skill :
  snd (select c) = SelVerified skill ->
  ~ In (normalize skill) (normalized_covered c).
Proof.
  unfold select. destruct (_ && _); [discriminate|].
  destruct (filter _ _); [|discriminate].
  destruct (verified_skills c) as [|s l] eqn:Hf; [discriminate|].
  cbn. intros H. injection H as <-.
  assert (Hin : In s (verified_skills c)) by (rewrite Hf; now left).
  unfold verified_skills in Hin. apply filter_In in Hin as [_ Hq].
  apply andb_prop in Hq as [_ Hq]. apply negb_true_iff in Hq.
  now apply mem_not_In.
Qed.

(** C3, the code at the failing input.  The unverified branch does not
    look at [covered_topics]: with the skills "Docker" and "docker", once
    "Docker" and two projects are covered the selector activates
    "docker", whose normalized name is covered already; retiring it
    counts nothing, so the next turn activates it again. *)
Theorem unverified_branch_reselects_covered :
  let c := run ["ok"; "skip"; "skip"; "skip"]
               (initial INTERVIEWING [] ["Docker"; "docker"]
                        [PDict (Some "PayAPI") None;
                         PDict (Some "Scraper") None]) in
  covered_topics c = ["Docker"; "PayAPI"; "Scraper"]
  /\ current_topic c = Some "Unverified: docker"
  /\ In (normalize "docker") (normalized_covered c)
  /\ process "skip" c
     = (c, mkTurn (Some (LacksKnowledge "docker"))
                  (Some (SelUnverified "docker"))).
Proof.
  vm_compute. repeat split; auto.
Qed.

(** *** [topic_turns] *)

Lemma process_turns_positive i c : 1 <= topic_turns (fst (process i c)).
Proof.
  rewrite process_phases.
  destruct (State_eqb (state c) INTERVIEW_START
            || negb (truthy (current_topic (fst (transition i c)))))
    eqn:Hsel.
  - destruct (SelectorFacts.select_frame (fst (transition i c)))
      as (_ & _ & _ & _ & _ & _ & H & _).
    cbv zeta in H. rewrite H. constructor.
  - apply orb_false_elim in Hsel as [_ Hsel].
    apply negb_false_iff in Hsel. revert Hsel. unfold transition.
    destruct (current_topic c) as [t|] eqn:Ht; [|discriminate].
    destruct (_ && _); [discriminate|].
    cbn. intros ->. lia.
Qed.

(** With no topic stored after a returned turn, the selector has just run
    (and taken its generic fallback). *)
Lemma process_no_topic_turns i c :
  current_topic (fst (process i c)) = None ->
  topic_turns (fst (process i c)) = 1.
Proof.
  rewrite process_phases.
  destruct (State_eqb (state c) INTERVIEW_START
            || negb (truthy (current_topic (fst (transition i c)))))
    eqn:Hsel.
  - intros _.
    destruct (SelectorFacts.select_frame (fst (transition i c)))
      as (_ & _ & _ & _ & _ & _ & H & _).
    exact H.
  - apply orb_false_elim in Hsel as [_ Hsel].
    apply negb_false_iff in Hsel. intros Hn. rewrite Hn in Hsel.
    discriminate Hsel.
Qed.

Lemma none_returned_snoc turns t :
  none_returned (turns ++ [t]) = none_returned turns && negb (returns (snd t)).
Proof.
  unfold none_returned. rewrite forallb_app. cbn. now rewrite andb_true_r.
Qed.

(** [topic_turns] is stored by returned turns only, and never as 0. *)
Lemma session_turns_zero turns c :
  topic_turns c = 0 ->
  (topic_turns (session turns c) = 0 <-> none_returned turns = true).
Proof.
  intros H0. induction turns as [|t turns IH] using rev_ind.
  - cbn. tauto.
  - rewrite session_snoc, none_returned_snoc.
    destruct (snd t) as [r|]; cbn [step returns negb].
    + rewrite andb_false_r.
      pose proof (process_turns_positive (fst t) (session turns c)).
      split; [lia | discriminate].
    + rewrite andb_true_r.
      destruct (raising_turn (fst t) (session turns c)) as (_ & Ht & _).
      cbv zeta in Ht. rewrite Ht. exact IH.
Qed.

(** C7 (as amended).  In every session state reached by interviewer turns
    whose language-model calls all returned, [topic_turns == 0] implies
    that [current_topic] is [None], an active topic has
    [topic_turns >= 1], and after at least one turn [current_topic] is
    [None] only with [topic_turns == 1].  In any session, [topic_turns]
    is 0 exactly when no call has returned yet. *)
Theorem zero_turns_means_no_topic
    (st : State) (skills unverified : list string)
    (projects : list Project) (turns : list (string * Outcome string)) :
  let c := session turns (initial st skills unverified projects) in
  (topic_turns c = 0 <-> none_returned turns = true)
  /\ (all_returned turns = true ->
      (topic_turns c = 0 -> current_topic c = None)
      /\ (truthy (current_topic c) = true -> 1 <= topic_turns c)
      /\ (turns <> [] -> 1 <= topic_turns c)
      /\ (turns <> [] -> current_topic c = None -> topic_turns c = 1)).
Proof.
  cbv zeta. split.
  - now apply session_turns_zero.
  - intros Hret. rewrite (session_returned _ _ Hret).
    destruct turns as [|t turns _] using rev_ind.
    + cbn. repeat split; try congruence; discriminate.
    + rewrite map_app. cbn [map]. rewrite run_snoc.
      set (c := run (map fst turns) (initial st skills unverified projects)).
      pose proof (process_turns_positive (fst t) c) as Hpos.
      pose proof (process_no_topic_turns (fst t) c) as Hnone.
      repeat split; intros; try lia. now apply Hnone.
Qed.

Lemma zero_turns_means_no_topic_witness :
  let turns := [("ok", Returns "Tell me about Docker.");
                ("skip", Returns "Tell me about an achievement.")] in
  let c := session turns (initial INTERVIEW_START [] ["Docker"] []) in
  all_returned turns = true
  /\ current_topic c = None
  /\ topic_turns c = 1.
Proof.
  cbv zeta. split; [reflexivity|]. split; [reflexivity|].
  apply (proj2 (zero_turns_means_no_topic INTERVIEW_START [] ["Docker"] []
                  [("ok", Returns "Tell me about Docker.");
                   ("skip", Returns "Tell me about an achievement.")])).
  - reflexivity.
  - discriminate.
  - reflexivity.
Defined.

(** C7 (as stated) fails in both directions.  When every pool is empty
    the selector takes the generic fallback, and the stored state has no
    topic but [topic_turns = 1], although the call returned.  And when
    the call of the first turn raises, the topic selected on it is
    already stored while [topic_turns] is still 0. *)
Lemma no_topic_with_one_turn :
  (let c := session [("ok", Returns "Tell me about an achievement.")]
                    (initial INTERVIEW_START [] [] []) in
   ~ (current_topic c = None <-> topic_turns c = 0))
  /\ (let c := session [("ok", Raises)]
                       (initial INTERVIEW_START [] ["Docker"] []) in
      current_topic c = Some "Unverified: Docker"
      /\ ~ (current_topic c = None <-> topic_turns c = 0)).
Proof.
  split; cbv zeta.
  - intros [H _]. specialize (H eq_refl). discriminate H.
  - split; [reflexivity|].
    intros [_ H]. specialize (H eq_refl). discriminate H.
Qed.

End CoverageFacts.

(** ** The transition policy *)

Module TransitionFacts.

Import Interviewer InterviewerSession LedgerFacts.

Arguments is_unknown : simpl never.
Arguments is_unverified_topic : simpl never.
Arguments topic_name : simpl never.
Arguments normalize : simpl never.

(** A turn reports a skip hint exactly when the transition was forced. *)
Lemma process_forced i c :
  forced (snd (process i c))
  = force_transition i (current_topic c)
      (if truthy (current_topic c)
       then S (topic_turns c) else topic_turns c)
    && truthy (current_topic c).
Proof.
  unfold process, transition, forced.
  destruct (current_topic c) as [t|].
  - destruct (_ && _); cbn;
      (destruct (_ || _); [destruct (select _)|]); reflexivity.
  - rewrite andb_false_r. cbn.
    destruct (_ || _); [destruct (select _)|]; reflexivity.
Qed.

(** What a forced turn does: retire, clear, then select in the same turn. *)
Lemma forced_turn i c t :
  current_topic c = Some t ->
  truthy (Some t) = true ->
  force_transition i (Some t) (S (topic_turns c)) = true ->
  fst (transition i c) = set_topic None 0 (retire t c)
  /\ fst (process i c) = fst (select (set_topic None 0 (retire t c)))
  /\ selected (snd (process i c))
     = Some (snd (select (set_topic None 0 (retire t c)))).
Proof.
  intros Ht Htr Hf. unfold process, transition.
  rewrite Ht, Htr, Hf. cbn. rewrite orb_true_r.
  destruct (select _); cbn. auto.
Qed.

Lemma retire_covered t c :
  Text.mem (normalize (topic_name t)) (normalized_covered c) = true ->
  retire t c = c.
Proof. intros H. unfold retire. now rewrite H. Qed.

Lemma retire_fresh t c :
  Text.mem (normalize (topic_name t)) (normalized_covered c) = false ->
  covered_topics (retire t c) = covered_topics c ++ [topic_name t]
  /\ unverified_asked (retire t c)
     = (if is_unverified_topic t
        then S (unverified_asked c) else unverified_asked c)
  /\ projects_asked (retire t c)
     = (if is_unverified_topic t
        then projects_asked c else S (projects_asked c)).
Proof. intros H. unfold retire. rewrite H. cbn. auto. Qed.

(** The ledger a forced turn stores, in terms of [retire]. *)
Lemma forced_turn_ledger i c t :
  current_topic c = Some t ->
  truthy (Some t) = true ->
  force_transition i (Some t) (S (topic_turns c)) = true ->
  covered_topics (fst (process i c)) = covered_topics (retire t c)
  /\ unverified_asked (fst (process i c)) = unverified_asked (retire t c)
  /\ projects_asked (fst (process i c)) = projects_asked (retire t c).
Proof.
  intros Ht Htr Hf.
  destruct (forced_turn i c t Ht Htr Hf) as (_ & -> & _).
  destruct (SelectorFacts.select_frame (set_topic None 0 (retire t c)))
    as (H1 & H2 & H3 & _).
  cbv zeta in *. rewrite H1, H2, H3. cbn. auto.
Qed.

(** *** Topics by category *)

Lemma topic_truthy cat name : truthy (Some (topic_of cat name)) = true.
Proof. destruct cat; reflexivity. Qed.

(** For a plain name the string tests read back what the selector wrote:
    the name, and the category. *)
Lemma topic_name_plain cat name :
  plain cat name = true -> topic_name (topic_of cat name) = name.
Proof.
  unfold plain. intros H. apply andb_prop in H as [H _].
  apply negb_true_iff in H. unfold topic_of.
  rewrite TextFacts.topic_name_after_separator. unfold topic_name.
  now rewrite (TextFacts.split_without_separator name H).
Qed.

Lemma category_plain cat name :
  plain cat name = true ->
  is_unverified_topic (topic_of cat name)
  = match cat with UnverifiedSkill => true | _ => false end.
Proof.
  unfold plain. intros H. apply andb_prop in H as [_ H].
  destruct cat; [apply unverified_tag | |];
    apply negb_true_iff in H; exact H.
Qed.

Lemma max_turns_plain cat name :
  plain cat name = true -> max_turns (topic_of cat name) = limit cat.
Proof.
  intros H. unfold max_turns. rewrite (category_plain cat name H).
  now destruct cat.
Qed.

(** Every topic the selector activates is the tagged name of the entry it
    picked, under the tag of that entry's category. *)
Theorem selected_topic_by_category (c : Ctx) :
  match snd (select c) with
  | SelUnverified skill =>
      current_topic (fst (select c))
      = Some (topic_of UnverifiedSkill skill)
  | SelProject p =>
      exists n, project_name p = Some n
                /\ n <> EmptyString
                /\ current_topic (fst (select c))
                   = Some (topic_of ProjectTopic n)
  | SelVerified skill =>
      current_topic (fst (select c)) = Some (topic_of VerifiedSkill skill)
  | SelGeneric => current_topic (fst (select c)) = current_topic c
  end.
Proof.
  unfold select. destruct (_ && _); [reflexivity|].
  destruct (filter _ _) as [|q l] eqn:Hf;
    [destruct (verified_skills c); reflexivity|].
  cbn.
  assert (Hin : In q (filter (project_available (normalized_covered c))
                             (discovered_projects c)))
    by (rewrite Hf; now left).
  apply filter_In in Hin as [_ Hq]. unfold project_available in Hq.
  unfold show_name. destruct (project_name q) as [n|]; [|discriminate].
  apply andb_prop in Hq as [Hne _].
  exists n. split; [reflexivity|]. split; [|reflexivity].
  intros ->. discriminate Hne.
Qed.

(** What a forced turn does to a topic with a plain name: the topic is
    dropped, its name is covered, the counter of its category counts it
    once unless it was covered already, and the selector runs on the
    same turn. *)
Lemma forced_turn_category i c cat name :
  current_topic c = Some (topic_of cat name) ->
  plain cat name = true ->
  force_transition i (Some (topic_of cat name)) (S (topic_turns c)) = true ->
  let c1 := fst (transition i c) in
  let c' := fst (process i c) in
  let covered := Text.mem (normalize name) (normalized_covered c) in
  forced (snd (process i c)) = true
  /\ current_topic c1 = None /\ topic_turns c1 = 0
  /\ selector_runs i c = true
  /\ c' = fst (select c1)
  /\ In (normalize name) (normalized_covered c')
  /\ (covered = false ->
      covered_topics c' = covered_topics c ++ [name]
      /\ asked cat c' = S (asked cat c)
      /\ unverified_asked c' + projects_asked c'
         = S (unverified_asked c + projects_asked c))
  /\ (covered = true ->
      covered_topics c' = covered_topics c
      /\ unverified_asked c' = unverified_asked c
      /\ projects_asked c' = projects_asked c).
Proof.
  intros Ht Hpl Hf c1 c' covered.
  pose proof (topic_truthy cat name) as Htr.
  destruct (forced_turn i c _ Ht Htr Hf) as (E1 & E2 & _).
  destruct (forced_turn_ledger i c _ Ht Htr Hf) as (L1 & L2 & L3).
  split.
  { rewrite process_forced, Ht, Htr, Hf. reflexivity. }
  split; [subst c1; now rewrite E1|].
  split; [subst c1; now rewrite E1|].
  split.
  { unfold selector_runs. rewrite E1. cbn. apply orb_true_r. }
  split; [subst c' c1; now rewrite E2, E1|].
  subst c'. unfold asked, normalized_covered at 1. rewrite L1, L2, L3.
  subst covered.
  destruct (Text.mem (normalize name) (normalized_covered c)) eqn:Hc.
  - rewrite retire_covered
      by (now rewrite (topic_name_plain cat name Hpl)).
    split; [now apply mem_In|]. split; [discriminate | auto].
  - destruct (retire_fresh (topic_of cat name) c) as (F1 & F2 & F3);
      [now rewrite (topic_name_plain cat name Hpl)|].
    rewrite F1, F2, F3, (topic_name_plain cat name Hpl),
      (category_plain cat name Hpl).
    split; [rewrite map_app; apply in_or_app; right; now left|].
    split; [|discriminate].
    intros _. split; [reflexivity|]. destruct cat; cbn; split; lia.
Qed.

(** A continued turn only counts the turn. *)
Lemma continued_turn i c t :
  current_topic c = Some t ->
  truthy (Some t) = true ->
  state c <> INTERVIEW_START ->
  force_transition i (Some t) (S (topic_turns c)) = false ->
  fst (process i c) = set_topic (Some t) (S (topic_turns c)) c
  /\ forced (snd (process i c)) = false.
Proof.
  intros Ht Htr Hst Hf.
  assert (Hs : State_eqb (state c) INTERVIEW_START = false)
    by (destruct (state c); try reflexivity; congruence).
  split.
  - rewrite process_phases, Hs. unfold transition.
    rewrite Ht, Htr, Hf. cbn. cbn in Htr. rewrite Htr. reflexivity.
  - rewrite process_forced, Ht, Htr, Hf. reflexivity.
Qed.

Lemma force_by_limit i cat name turns :
  plain cat name = true ->
  is_unknown i = false ->
  force_transition i (Some (topic_of cat name)) turns = (limit cat <? turns).
Proof.
  intros Hpl Hu. unfold force_transition.
  rewrite Hu, (topic_truthy cat name), (max_turns_plain cat name Hpl).
  reflexivity.
Qed.

(** The turn limit, by category.  For a topic with a plain name and an
    input without a disengagement phrase, the transition is forced if and
    only if the incremented [topic_turns] exceeds the limit of the
    topic's category: 2 for an unverified skill, 3 for a project or a
    verified skill.  When it is forced the topic is dropped and retired
    and the selector runs; otherwise the topic stays, one turn older. *)
Theorem turn_limit_by_category
    (user_input : string) (c : Ctx) (cat : Category) (name : string) :
  current_topic c = Some (topic_of cat name) ->
  plain cat name = true ->
  is_unknown user_input = false ->
  let turns := S (topic_turns c) in
  let c' := fst (process user_input c) in
  (forced (snd (process user_input c)) = true <-> limit cat < turns)
  /\ (limit cat < turns ->
      current_topic (fst (transition user_input c)) = None
      /\ selector_runs user_input c = true
      /\ In (normalize name) (normalized_covered c')
      /\ (Text.mem (normalize name) (normalized_covered c) = false ->
          covered_topics c' = covered_topics c ++ [name]
          /\ asked cat c' = S (asked cat c)))
  /\ (turns <= limit cat ->
      state c <> INTERVIEW_START ->
      c' = set_topic (Some (topic_of cat name)) turns c).
Proof.
  intros Ht Hpl Hu turns c'.
  pose proof (topic_truthy cat name) as Htr.
  pose proof (force_by_limit user_input cat name turns Hpl Hu) as Hf.
  split.
  { rewrite process_forced, Ht, Htr. fold turns. rewrite Hf. cbn [andb].
    rewrite andb_true_r. apply Nat.ltb_lt. }
  split.
  - intros Hlt. apply Nat.ltb_lt in Hlt. rewrite Hlt in Hf.
    destruct (forced_turn_category user_input c cat name Ht Hpl Hf)
      as (_ & H1 & _ & H2 & _ & H3 & H4 & _).
    split; [exact H1|]. split; [exact H2|]. split; [exact H3|].
    intros Hc. destruct (H4 Hc) as (G1 & G2 & _). auto.
  - intros Hle Hst. apply Nat.ltb_ge in Hle. rewrite Hle in Hf.
    now destruct (continued_turn user_input c _ Ht Htr Hst Hf).
Qed.

Lemma turn_limit_by_category_witness :
  let c := run ["ok"; "It settles card payments."]
               (initial INTERVIEW_START [] [] [PDict (Some "PayAPI") None]) in
  fst (process "We shard the ledger by merchant." c)
  = set_topic (Some "Project: PayAPI") 3 c.
Proof.
  cbv zeta.
  apply (turn_limit_by_category "We shard the ledger by merchant."
           (run ["ok"; "It settles card payments."]
                (initial INTERVIEW_START [] []
                         [PDict (Some "PayAPI") None]))
           ProjectTopic "PayAPI").
  - vm_compute. reflexivity.
  - vm_compute. reflexivity.
  - vm_compute. reflexivity.
  - vm_compute. lia.
  - vm_compute. discriminate.
Defined.

(** Follow-up turns: as long as the limit of its category is not exceeded,
    a topic with a plain name stays active through any inputs without a
    disengagement phrase, and only [topic_turns] changes. *)
Theorem follow_ups_within_limit
    (inputs : list string) (c : Ctx) (cat : Category) (name : string) :
  current_topic c = Some (topic_of cat name) ->
  plain cat name = true ->
  state c <> INTERVIEW_START ->
  forallb (fun i => negb (is_unknown i)) inputs = true ->
  topic_turns c + length inputs <= limit cat ->
  run inputs c
  = set_topic (Some (topic_of cat name)) (topic_turns c + length inputs) c.
Proof.
  revert c. induction inputs as [|i inputs IH]; intros c Ht Hpl Hst Hin Hle.
  - cbn. rewrite Nat.add_0_r, <- Ht. now destruct c.
  - cbn [forallb] in Hin. apply andb_prop in Hin as [Hi Hin].
    apply negb_true_iff in Hi. cbn [length] in Hle.
    pose proof (topic_truthy cat name) as Htr.
    pose proof (force_by_limit i cat name (S (topic_turns c)) Hpl Hi) as Hf.
    assert (Hlim : (limit cat <? S (topic_turns c)) = false)
      by (apply Nat.ltb_ge; lia).
    rewrite Hlim in Hf.
    destruct (continued_turn i c _ Ht Htr Hst Hf) as [Hc _].
    change (run (i :: inputs) c) with (run inputs (fst (process i c))).
    rewrite Hc, IH; cbn; try assumption; try reflexivity; try lia.
    unfold set_topic. cbn. f_equal. lia.
Qed.

Lemma follow_ups_within_limit_witness :
  let c := run ["ok"] (initial INTERVIEW_START [] ["Kubernetes"] []) in
  run ["I deployed it on bare metal."] c
  = set_topic (Some "Unverified: Kubernetes") 2 c.
Proof.
  cbv zeta.
  apply (follow_ups_within_limit ["I deployed it on bare metal."]
           (run ["ok"] (initial INTERVIEW_START [] ["Kubernetes"] []))
           UnverifiedSkill "Kubernetes").
  - vm_compute. reflexivity.
  - vm_compute. reflexivity.
  - vm_compute. discriminate.
  - vm_compute. reflexivity.
  - vm_compute. lia.
Defined.

(** C4.  The claim fails for a project whose name contains "unverified".
    The project "unverified-payments" is selected as a project topic and
    kept on its first follow-up turn; on the second one, with an input
    without a disengagement phrase and [topic_turns] incremented to 3,
    which does not exceed the limit 3 of a project, the transition is
    forced all the same (line 74 takes the topic for an unverified
    skill), and the project is counted in [unverified_asked]. *)
Theorem project_named_unverified_cut_short :
  let c0 := initial INTERVIEW_START [] []
                    [PDict (Some "unverified-payments") None] in
  let t1 := process "ok" c0 in
  let t2 := process "It settles card payments." (fst t1) in
  let t3 := process "We shard the ledger by merchant." (fst t2) in
  selected (snd t1)
  = Some (SelProject (PDict (Some "unverified-payments") None))
  /\ current_topic (fst t1)
     = Some (topic_of ProjectTopic "unverified-payments")
  /\ topic_turns (fst t1) = 1
  /\ forced (snd t2) = false
  /\ current_topic (fst t2) = current_topic (fst t1)
  /\ topic_turns (fst t2) = 2
  /\ is_unknown "We shard the ledger by merchant." = false
  /\ S (topic_turns (fst t2)) <= limit ProjectTopic
  /\ forced (snd t3) = true
  /\ covered_topics (fst t3) = ["unverified-payments"]
  /\ unverified_asked (fst t3) = 1
  /\ projects_asked (fst t3) = 0.
Proof. vm_compute. repeat split; auto. Qed.

End TransitionFacts.

(** ** Retiring a topic *)

Module RetireFacts.

Import Interviewer InterviewerSession LedgerFacts TransitionFacts.

Arguments is_unknown : simpl never.
Arguments is_unverified_topic : simpl never.
Arguments topic_name : simpl never.
Arguments normalize : simpl never.

Lemma unknown_forces i t turns :
  is_unknown i = true -> truthy (Some t) = true ->
  force_transition i (Some t) turns = true.
Proof. intros Hu Ht. unfold force_transition. now rewrite Hu, Ht. Qed.

(** C5 (as amended).  On a turn whose language-model call returns, with an
    active topic of any category whose name is plain (no [": "] inside
    and, for a project or a verified skill, no "unverified") and an input
    that contains a disengagement phrase, the transition is forced
    whatever [topic_turns] is: afterwards the topic's normalized name is
    in [covered_topics]; if it was not covered before, the name is
    appended and the counter of its category is incremented exactly once
    (the other counter is unchanged), and if it was already covered
    nothing is appended or counted; [current_topic] and [topic_turns] are
    cleared before the selector runs, which it does in the same turn, so
    that the stored [current_topic] is the selector's choice. *)
Theorem disengagement_forces_transition
    (user_input reply : string) (c : Ctx) (cat : Category) (name : string) :
  current_topic c = Some (topic_of cat name) ->
  plain cat name = true ->
  is_unknown user_input = true ->
  let c1 := fst (transition user_input c) in
  let c' := step user_input (Returns reply) c in
  let covered := Text.mem (normalize name) (normalized_covered c) in
  forced (snd (process user_input c)) = true
  /\ current_topic c1 = None /\ topic_turns c1 = 0
  /\ selector_runs user_input c = true
  /\ c' = fst (select c1)
  /\ In (normalize name) (normalized_covered c')
  /\ (covered = false ->
      covered_topics c' = covered_topics c ++ [name]
      /\ asked cat c' = S (asked cat c)
      /\ unverified_asked c' + projects_asked c'
         = S (unverified_asked c + projects_asked c))
  /\ (covered = true ->
      covered_topics c' = covered_topics c
      /\ unverified_asked c' = unverified_asked c
      /\ projects_asked c' = projects_asked c).
Proof.
  intros Ht Hpl Hu. cbn [step].
  apply (forced_turn_category user_input c cat name Ht Hpl).
  apply unknown_forces; [exact Hu | apply topic_truthy].
Qed.

Lemma disengagement_forces_transition_witness :
  let c := run ["ok"; "skip"]
               (initial INTERVIEW_START [] ["Kubernetes"]
                        [PDict (Some "PayAPI") None]) in
  let c' := step "I don't know, let's move on" (Returns "Fine.") c in
  current_topic c = Some "Project: PayAPI"
  /\ forced (snd (process "I don't know, let's move on" c)) = true
  /\ covered_topics c' = ["Kubernetes"; "PayAPI"]
  /\ projects_asked c' = 1
  /\ unverified_asked c' + projects_asked c' = 2.
Proof.
  cbv zeta.
  destruct (disengagement_forces_transition
              "I don't know, let's move on" "Fine."
              (run ["ok"; "skip"]
                   (initial INTERVIEW_START [] ["Kubernetes"]
                            [PDict (Some "PayAPI") None]))
              ProjectTopic "PayAPI" eq_refl eq_refl eq_refl)
    as (H1 & _ & _ & _ & _ & _ & H2 & _).
  destruct (H2 eq_refl) as (H3 & H4 & H5).
  split; [reflexivity|]. split; [exact H1|]. split; [exact H3|].
  split; [exact H4 | exact H5].
Defined.

(** C5 (as stated) fails, in four ways.  (1) The active topic "docker" is
    skipped, yet no counter is incremented, since its normalized name is
    already covered; and the turn ends with the newly selected topic as
    [current_topic].  (2) When the call of the skipping turn raises, the
    name is appended to [covered_topics] but no counter is stored.
    (3) For the project "Acme: Billing" only "Billing" is appended, and
    the same project is selected again on the same turn.  (4) The
    project "unverified-payments" is counted in [unverified_asked]. *)
Lemma disengagement_without_count :
  (let c := run ["ok"; "skip"; "skip"; "skip"]
                (initial INTERVIEWING [] ["Docker"; "docker"]
                         [PDict (Some "PayAPI") None;
                          PDict (Some "Scraper") None]) in
   let c' := fst (process "skip" c) in
   current_topic c = Some "Unverified: docker"
   /\ is_unknown "skip" = true
   /\ unverified_asked c' <> S (unverified_asked c)
   /\ projects_asked c' = projects_asked c
   /\ covered_topics c' = covered_topics c
   /\ current_topic c' <> None)
  /\ (let c := run ["ok"]
                   (initial INTERVIEW_START [] ["Kubernetes"]
                            [PDict (Some "PayAPI") None]) in
      let c' := step "skip" Raises c in
      current_topic c = Some "Unverified: Kubernetes"
      /\ covered_topics c = []
      /\ covered_topics c' = ["Kubernetes"]
      /\ unverified_asked c' = unverified_asked c
      /\ projects_asked c' = projects_asked c
      /\ current_topic c' = Some "Project: PayAPI")
  /\ (let c := run ["ok"]
                   (initial INTERVIEW_START [] []
                            [PDict (Some "Acme: Billing") None]) in
      let c' := fst (process "skip" c) in
      current_topic c = Some "Project: Acme: Billing"
      /\ covered_topics c' = ["Billing"]
      /\ current_topic c' = Some "Project: Acme: Billing")
  /\ (let c := run ["ok"]
                   (initial INTERVIEW_START [] []
                            [PDict (Some "unverified-payments") None]) in
      let c' := fst (process "skip" c) in
      current_topic c = Some "Project: unverified-payments"
      /\ covered_topics c' = ["unverified-payments"]
      /\ projects_asked c' = projects_asked c
      /\ unverified_asked c' = S (unverified_asked c)).
Proof.
  vm_compute. repeat split; auto; discriminate.
Qed.

(** C6 (as amended).  In [InterviewerAgent.process], a forced transition
    on a topic whose normalized name is already covered leaves
    [covered_topics], [unverified_asked] and [projects_asked] unchanged.
    In src/agents/interviewer_agent.py the trackers are updated when the
    model's reply says "moving on" (or "another area"), without looking
    at [covered_topics]: the name is appended and the counter of the
    topic's category is incremented every time. *)
Theorem retire_idempotent :
  (forall user_input c t,
      current_topic c = Some t ->
      truthy (Some t) = true ->
      force_transition user_input (Some t) (S (topic_turns c)) = true ->
      Text.mem (normalize (topic_name t)) (normalized_covered c) = true ->
      let c' := fst (process user_input c) in
      covered_topics c' = covered_topics c
      /\ unverified_asked c' = unverified_asked c
      /\ projects_asked c' = projects_asked c)
  /\ (forall response c t,
        current_topic c = Some t ->
        truthy (Some t) = true ->
        state c <> INTERVIEW_START ->
        GraphAgent.moves_on response = true ->
        let c' := fst (GraphAgent.process response c) in
        covered_topics c' = covered_topics c ++ [topic_name t]
        /\ unverified_asked c'
           = (if is_unverified_topic t
              then S (unverified_asked c) else unverified_asked c)
        /\ projects_asked c'
           = (if is_unverified_topic t
              then projects_asked c else S (projects_asked c))).
Proof.
  split.
  - intros i c t Ht Htr Hf Hc c'.
    destruct (forced_turn_ledger i c t Ht Htr Hf) as (L1 & L2 & L3).
    subst c'. rewrite L1, L2, L3, (retire_covered t c Hc). auto.
  - intros r c t Ht Htr Hst Hm c'. subst c'.
    unfold GraphAgent.process.
    assert (Hs : State_eqb (state c) INTERVIEW_START = false)
      by (destruct (state c); try reflexivity; congruence).
    rewrite Hs, Ht, Htr. cbn [orb negb fst].
    unfold GraphAgent.update_trackers. rewrite Hm, Ht, Htr. cbn. auto.
Qed.

Lemma retire_idempotent_witness :
  let c := run ["ok"; "skip"; "skip"; "skip"]
               (initial INTERVIEWING [] ["Docker"; "docker"]
                        [PDict (Some "PayAPI") None;
                         PDict (Some "Scraper") None]) in
  let g := mkCtx INTERVIEWING [] [] [] (Some "Project: PayAPI")
                 ["PayAPI"] 0 0 1 in
  projects_asked (fst (process "skip" c)) = projects_asked c
  /\ projects_asked (fst (GraphAgent.process "Moving on." g)) = 2.
Proof.
  cbv zeta. split.
  - apply (proj1 retire_idempotent "skip"
             (run ["ok"; "skip"; "skip"; "skip"]
                (initial INTERVIEWING [] ["Docker"; "docker"]
                   [PDict (Some "PayAPI") None;
                    PDict (Some "Scraper") None]))
             "Unverified: docker"); reflexivity.
  - apply (proj2 retire_idempotent "Moving on."
             (mkCtx INTERVIEWING [] [] [] (Some "Project: PayAPI")
                    ["PayAPI"] 0 0 1)
             "Project: PayAPI"); try reflexivity; discriminate.
Defined.

(** C6 (as stated) fails on src/agents/interviewer_agent.py: the project
    "payapi" is picked (the raw name is not in [covered_topics]) although
    its normalized name is covered, and when the model moves on it is
    counted a second time. *)
Lemma graph_agent_counts_covered_topic_again :
  let c := fst (GraphAgent.process "Good. Moving on."
                  (initial INTERVIEWING [] []
                           [PDict (Some "PayAPI") None;
                            PDict (Some "payapi") None])) in
  let turn := GraphAgent.process "Thanks, moving on." c in
  covered_topics c = ["PayAPI"]
  /\ snd turn = Some (SelProject (PDict (Some "payapi") None))
  /\ Text.mem (normalize "payapi") (normalized_covered c) = true
  /\ projects_asked (fst turn) = S (projects_asked c)
  /\ covered_topics (fst turn) = ["PayAPI"; "payapi"].
Proof. cbv zeta. repeat split; reflexivity. Qed.

End RetireFacts.

(** ** Research-phase recovery and the shape of [discovered_projects] *)

Module ResearchFacts.

Import Research.

Lemma normalize_projects_dicts l :
  Forall (fun p => is_dict p = true) (normalize_projects l).
Proof.
  induction l as [|p l IH]; [constructor|].
  destruct p; cbn; try exact IH; constructor; auto.
Qed.

Lemma normalize_projects_named l :
  Forall (fun p => is_dict p = true -> has_name p = true) l ->
  Forall (fun p => has_name p = true) (normalize_projects l).
Proof.
  induction 1 as [|p l Hp _ IH]; [constructor|].
  destruct p; cbn; try exact IH; constructor; auto.
Qed.

Lemma real_projects_records g github :
  Forall (fun p => is_dict p = true /\ has_name p = true)
         (real_projects g github).
Proof.
  unfold real_projects. destruct github as [gh|]; [|constructor].
  destruct (_ && _); [|constructor].
  induction (g gh) as [|r l IH]; cbn; constructor; auto.
Qed.

(** The project list a returning call hands back. *)
Lemma perform_projects g github chain analysis unverified projects :
  perform_deep_analysis g github chain
  = Returns (analysis, unverified, projects) ->
  projects = real_projects g github
  \/ exists fields final,
      chain = Returns (JDict fields)
      /\ iterate (get_default "discovered_projects" (JList []) fields)
         = Returns final
      /\ projects = normalize_projects final
      /\ normalize_projects final <> [].
Proof.
  unfold perform_deep_analysis, analyse.
  destruct chain as [data|]; [|intros H; injection H; auto].
  destruct data; try (intros H; injection H; auto; fail).
  destruct (iterate _) as [final|] eqn:Hi; [|intros H; injection H; auto].
  destruct (normalize_projects final) as [|p l] eqn:Hn.
  - destruct (real_projects g github) eqn:Hr;
      intros H; injection H; intros; subst; auto.
  - intros H. injection H. intros <- _ _. right.
    exists fields, final. rewrite Hn. repeat split; auto. discriminate.
Qed.




(** C10 (as amended).  Every element of the [discovered_projects] list
    returned by the deep analysis is a record.  Records returned by the
    model are kept as they are (whether or not they have a ["name"]
    key), bare strings become [{name: s, description: ""}], entries of
    any other shape are dropped, and when no usable entry remains the
    list fetched from the verification collaborator is returned
    unchanged.  Every element has a ["name"] key provided every record
    the model returned has one. *)
Theorem discovered_projects_shape
    (g : string -> list Repo) (github : option string)
    (chain : Outcome json) (analysis unverified : json)
    (projects : list json) :
  perform_deep_analysis g github chain
  = Returns (analysis, unverified, projects) ->
  Forall (fun p => is_dict p = true) projects
  /\ (forall fields final,
        chain = Returns (JDict fields) ->
        iterate (get_default "discovered_projects" (JList []) fields)
        = Returns final ->
        (normalize_projects final = [] ->
         projects = real_projects g github)
        /\ (normalize_projects final <> [] ->
            projects = normalize_projects final)
        /\ (Forall (fun p => is_dict p = true -> has_name p = true) final ->
            Forall (fun p => has_name p = true) projects))
  /\ (forall s r,
        normalize_projects (JStr s :: r)
        = bare_project s :: normalize_projects r)
  /\ (forall fields r,
        normalize_projects (JDict fields :: r)
        = JDict fields :: normalize_projects r).
Proof.
  intros H. split; [|split; [|split; reflexivity]].
  - destruct (perform_projects _ _ _ _ _ _ H)
      as [-> | (f & l & _ & _ & -> & _)].
    + eapply Forall_impl; [|apply real_projects_records]. cbn. tauto.
    + apply normalize_projects_dicts.
  - intros fields final -> Hi. revert H.
    unfold perform_deep_analysis, analyse. rewrite Hi.
    destruct (normalize_projects final) as [|p l] eqn:Hn.
    + intros H.
      assert (Hp : projects = real_projects g github)
        by (destruct (real_projects g github);
            injection H; intros; subst; auto).
      split; [auto|]. split; [congruence|]. intros _. rewrite Hp.
      eapply Forall_impl; [|apply real_projects_records]. cbn. tauto.
    + intros H. injection H. intros <- _ _.
      split; [discriminate|]. split; [auto|].
      intros Hall. rewrite <- Hn. now apply normalize_projects_named.
Qed.

Lemma discovered_projects_shape_witness :
  let chain :=
    Returns (JDict [("analysis", JStr "Solid profile.");
                    ("unverified_skills", JList [JStr "Kafka"]);
                    ("discovered_projects",
                     JList [JStr "PayAPI"; JNum "7";
                            JDict [("name", JStr "Scraper")]])]) in
  Forall (fun p => is_dict p = true)
         [bare_project "PayAPI"; JDict [("name", JStr "Scraper")]].
Proof.
  cbv zeta.
  exact (proj1 (discovered_projects_shape
                  (fun _ => []) None
                  (Returns (JDict [("analysis", JStr "Solid profile.");
                                   ("unverified_skills", JList [JStr "Kafka"]);
                                   ("discovered_projects",
                                    JList [JStr "PayAPI"; JNum "7";
                                           JDict [("name", JStr "Scraper")]])]))
                  (JStr "Solid profile.") (JList [JStr "Kafka"])
                  [bare_project "PayAPI"; JDict [("name", JStr "Scraper")]]
                  eq_refl)).
Defined.

(** C10 (as stated) fails: a record the model returns without a ["name"]
    key is passed through as it is. *)
Lemma project_without_name_kept :
  let chain :=
    Returns (JDict [("discovered_projects",
                     JList [JDict [("title", JStr "PayAPI")]])]) in
  exists analysis unverified p,
    perform_deep_analysis (fun _ => []) None chain
    = Returns (analysis, unverified, [p])
    /\ has_name p = false.
Proof.
  cbv zeta. do 3 eexists. split; reflexivity.
Qed.

End ResearchFacts.

(** ** The orchestrator's state machine *)

Module OrchestratorFacts.

Import Orchestrator.

Lemma chat_history e i s :
  length (history s) <= length (history (snd (chat e i s))).
Proof.
  unfold chat. destruct (route e i s) as [a st].
  destruct (reply e); cbn; [rewrite length_app|]; lia.
Qed.

Lemma chat_seasoned e i s : seasoned s -> seasoned (snd (chat e i s)).
Proof.
  unfold seasoned, chat, route, returned.
  destruct (greets _ && _ && _); destruct (state s);
    destruct (reply e); try destruct (research_done e);
    try destruct (_ || _); try destruct (selects e);
    cbn; try rewrite length_app; cbn; intros; try tauto; lia.
Qed.

Lemma reachable_seasoned s : reachable s -> seasoned s.
Proof.
  induction 1 as [|e i s _ IH]; [exact I|]. now apply chat_seasoned.
Qed.

(** In [SCORING], with the history such a session has, every input goes
    to the scoring agent and the state stays. *)
Lemma scoring_step e i s :
  state s = SCORING -> 3 <= length (history s) ->
  fst (chat e i s) = ScoreAgent /\ state (snd (chat e i s)) = SCORING.
Proof.
  intros Hs Hl. unfold chat, route.
  assert (Hlt : (length (history s) <? 3) = false)
    by (apply Nat.ltb_ge; exact Hl).
  rewrite Hlt, andb_false_r, Hs. cbn.
  destruct (reply e); cbn; auto.
Qed.

(** C8.  Once the state of a session is [SCORING], every later turn,
    whatever the input and whatever the collaborators do, is dispatched
    to the scoring agent and leaves the state [SCORING]. *)
Theorem scoring_is_terminal
    (s : Session) (turns : list (Env * string)) :
  reachable s ->
  state s = SCORING ->
  Forall (fun step => fst step = ScoreAgent /\ state (snd step) = SCORING)
         (chat_trace turns s).
Proof.
  intros Hr Hs. apply reachable_seasoned in Hr.
  assert (Hl : 3 <= length (history s))
    by (unfold seasoned in Hr; rewrite Hs in Hr; lia).
  clear Hr. revert s Hs Hl.
  induction turns as [|[e i] turns IH]; intros s Hs Hl; [constructor|].
  cbn. destruct (scoring_step e i s Hs Hl) as [Ha Hst].
  constructor; [split; assumption|].
  apply IH; [exact Hst|].
  pose proof (chat_history e i s). lia.
Qed.

Lemma scoring_is_terminal_witness :
  let ok := mkEnv true true (Returns "Understood.") in
  let down := mkEnv true true Raises in
  let s := snd (chat ok "finish the interview"
             (snd (chat ok "ok" (snd (chat ok "skip" new_session))))) in
  state s = SCORING
  /\ Forall (fun step => fst step = ScoreAgent /\ state (snd step) = SCORING)
            (chat_trace [(ok, "hi"); (down, "hello, one more question")] s).
Proof.
  cbv zeta. split; [reflexivity|].
  apply (scoring_is_terminal
           (snd (chat (mkEnv true true (Returns "Understood."))
                   "finish the interview"
                   (snd (chat (mkEnv true true (Returns "Understood.")) "ok"
                      (snd (chat (mkEnv true true (Returns "Understood."))
                              "skip" new_session))))))).
  - apply reach_chat, reach_chat, reach_chat, reach_new.
  - reflexivity.
Defined.

(** The greeting check comes before the state dispatch: it is the
    accumulated history that keeps greetings away from the greeting agent
    once a session is scoring. *)
Lemma greeting_precedes_dispatch :
  route (mkEnv true true (Returns "Hello!")) "hi" (mkSession SCORING [])
  = (GreetingBot, SCORING).
Proof. reflexivity. Qed.

End OrchestratorFacts.

(** ** More on the topic ledger of [InterviewerAgent.process] *)

Module LedgerAccounting.

Import Interviewer InterviewerSession LedgerFacts.

Arguments is_unknown : simpl never.
Arguments is_unverified_topic : simpl never.
Arguments topic_name : simpl never.
Arguments normalize : simpl never.

(** What one turn does to the ledger: nothing, or one name appended and
    one counter incremented. *)
Lemma process_ledger_step i c :
  let c' := fst (process i c) in
  (covered_topics c' = covered_topics c
   /\ unverified_asked c' = unverified_asked c
   /\ projects_asked c' = projects_asked c)
  \/ (exists name,
        covered_topics c' = covered_topics c ++ [name]
        /\ ((unverified_asked c' = S (unverified_asked c)
             /\ projects_asked c' = projects_asked c)
            \/ (unverified_asked c' = unverified_asked c
                /\ projects_asked c' = S (projects_asked c)))).
Proof.
  cbv zeta.
  assert (Ht : let c1 := fst (transition i c) in
               (covered_topics c1 = covered_topics c
                /\ unverified_asked c1 = unverified_asked c
                /\ projects_asked c1 = projects_asked c)
               \/ (exists name,
                      covered_topics c1 = covered_topics c ++ [name]
                      /\ ((unverified_asked c1 = S (unverified_asked c)
                           /\ projects_asked c1 = projects_asked c)
                          \/ (unverified_asked c1 = unverified_asked c
                              /\ projects_asked c1
                                 = S (projects_asked c))))).
  { unfold transition, retire.
    destruct (current_topic c) as [t|]; cbn; [|auto].
    destruct (_ && _); cbn; [|auto].
    destruct (Text.mem _ _); cbn; [auto|].
    right. exists (topic_name t). split; [reflexivity|].
    destruct (is_unverified_topic t); auto. }
  rewrite process_phases. destruct (_ || _); [|exact Ht].
  destruct (SelectorFacts.select_frame (fst (transition i c)))
    as (H1 & H2 & H3 & _).
  cbv zeta in *. rewrite H1, H2, H3. exact Ht.
Qed.

(** A turn whose call raises appends at most one name and stores no
    counter. *)
Lemma raising_ledger_step i c :
  let c' := process_raising i c in
  unverified_asked c' = unverified_asked c
  /\ projects_asked c' = projects_asked c
  /\ (covered_topics c' = covered_topics c
      \/ exists name, covered_topics c' = covered_topics c ++ [name]).
Proof.
  destruct (raising_turn i c) as (Hc & _ & Hu & Hp & _).
  cbv zeta in *. rewrite Hc, Hu, Hp. split; [reflexivity|].
  split; [reflexivity|].
  unfold transition, retire.
  destruct (current_topic c) as [t|]; cbn; [|auto].
  destruct (_ && _); cbn; [|auto].
  destruct (Text.mem _ _); cbn; [auto|].
  right. now exists (topic_name t).
Qed.

(** The ledger over a session: the earlier list stays as a prefix, at most
    one name is appended per turn, no counter decreases, and the counters
    grow by at most the number of names appended. *)
Lemma session_ledger turns c :
  let c' := session turns c in
  exists added,
    covered_topics c' = covered_topics c ++ added
    /\ length added <= length turns
    /\ unverified_asked c <= unverified_asked c'
    /\ projects_asked c <= projects_asked c'
    /\ unverified_asked c' + projects_asked c'
       <= unverified_asked c + projects_asked c + length added
    /\ (all_returned turns = true ->
        unverified_asked c' + projects_asked c'
        = unverified_asked c + projects_asked c + length added).
Proof.
  cbv zeta.
  induction turns as [|t turns IH] using rev_ind.
  - exists []. cbn. rewrite app_nil_r. repeat split; lia.
  - rewrite session_snoc, all_returned_snoc.
    destruct IH as (added & Hc & Hl & Hu & Hp & Hs & He).
    rewrite length_app. cbn [length].
    destruct (snd t) as [r|]; cbn [step returns].
    + rewrite andb_true_r.
      destruct (process_ledger_step (fst t) (session turns c))
        as [(E1 & E2 & E3) | (name & E1 & [[E2 E3] | [E2 E3]])];
        cbv zeta in *; rewrite E1, E2, E3, Hc.
      * exists added. repeat split; try lia.
        all: try (intros H; specialize (He H); lia).
      * exists (added ++ [name]). rewrite app_assoc, length_app. cbn.
        repeat split; try lia.
        all: try (intros H; specialize (He H); lia).
      * exists (added ++ [name]). rewrite app_assoc, length_app. cbn.
        repeat split; try lia.
        all: try (intros H; specialize (He H); lia).
    + rewrite andb_false_r.
      destruct (raising_ledger_step (fst t) (session turns c))
        as (E2 & E3 & [E1 | (name & E1)]);
        cbv zeta in *; rewrite E1, E2, E3, Hc.
      * exists added. repeat split; try lia; discriminate.
      * exists (added ++ [name]). rewrite app_assoc, length_app. cbn.
        repeat split; try lia; discriminate.
Qed.

(** Every retired topic is counted at most once, and exactly once when no
    language-model call failed: in any session the two counters add up to
    at most the number of covered topics, and to exactly that number when
    every call returned. *)
Theorem counters_account_for_covered
    (st : State) (skills unverified : list string)
    (projects : list Project) (turns : list (string * Outcome string)) :
  let c := session turns (initial st skills unverified projects) in
  unverified_asked c + projects_asked c <= length (covered_topics c)
  /\ (all_returned turns = true ->
      unverified_asked c + projects_asked c = length (covered_topics c)).
Proof.
  cbv zeta.
  destruct (session_ledger turns (initial st skills unverified projects))
    as (added & Hc & _ & _ & _ & Hs & He).
  cbv zeta in *. rewrite Hc. cbn in *. split; [lia|].
  intros H. specialize (He H). lia.
Qed.

(** [covered_topics] is append-only and the counters never decrease: over
    any further turns, returned or failed, the earlier list stays as a
    prefix, the suffix has at most one name per turn, and the counters
    grow by at most its length in total (by exactly its length when every
    call returned). *)
Theorem ledger_only_grows
    (c : Ctx) (turns : list (string * Outcome string)) :
  let c' := session turns c in
  exists added,
    covered_topics c' = covered_topics c ++ added
    /\ length added <= length turns
    /\ unverified_asked c <= unverified_asked c'
    /\ projects_asked c <= projects_asked c'
    /\ unverified_asked c' + projects_asked c'
       <= unverified_asked c + projects_asked c + length added
    /\ (all_returned turns = true ->
        unverified_asked c' + projects_asked c'
        = unverified_asked c + projects_asked c + length added).
Proof. exact (session_ledger turns c). Qed.

(** A turn that continues the active topic touches nothing but the turn
    count: with a topic active, no disengagement phrase, the count still
    within the limit and the state not [INTERVIEW_START], the selector
    does not run and only [topic_turns] changes, by one. *)
Theorem continuing_turn_only_counts
    (user_input : string) (c : Ctx) (t : string) :
  current_topic c = Some t ->
  truthy (Some t) = true ->
  is_unknown user_input = false ->
  S (topic_turns c) <= max_turns t ->
  state c <> INTERVIEW_START ->
  process user_input c
  = (set_topic (Some t) (S (topic_turns c)) c, mkTurn None None).
Proof.
  intros Ht Htr Hu Hle Hst. unfold process, transition.
  assert (Hs : State_eqb (state c) INTERVIEW_START = false)
    by (destruct (state c); try reflexivity; congruence).
  assert (Hf : force_transition user_input (Some t) (S (topic_turns c))
               = false).
  { unfold force_transition. rewrite Hu, Htr. cbn [andb].
    apply Nat.ltb_ge. exact Hle. }
  rewrite Ht, Htr, Hf, Hs. cbn [andb orb fst snd current_topic set_topic].
  rewrite Htr. reflexivity.
Qed.

Lemma continuing_turn_only_counts_witness :
  let c := run ["ok"] (initial INTERVIEWING []  []
                               [PDict (Some "PayAPI") (Some "Payments")]) in
  process "It is a Flask service" c
  = (set_topic (Some "Project: PayAPI") 2 c, mkTurn None None).
Proof.
  cbv zeta.
  apply (continuing_turn_only_counts "It is a Flask service"
           (run ["ok"] (initial INTERVIEWING [] []
                          [PDict (Some "PayAPI") (Some "Payments")]))
           "Project: PayAPI"); try reflexivity.
  - vm_compute. lia.
  - discriminate.
Defined.

End LedgerAccounting.

(** ** The selector's order of choice *)

Module SelectionOrder.

Import Interviewer InterviewerSession LedgerFacts.

Arguments is_unknown : simpl never.
Arguments is_unverified_topic : simpl never.
Arguments topic_name : simpl never.
Arguments normalize : simpl never.

Lemma filter_first {A} (f : A -> bool) l x r :
  filter f l = x :: r ->
  exists l1 l2,
    l = l1 ++ x :: l2 /\ Forall (fun y => f y = false) l1 /\ f x = true.
Proof.
  induction l as [|a l IH]; cbn; [discriminate|].
  destruct (f a) eqn:Ha.
  - intros H. injection H as -> _. exists [], l. auto.
  - intros H. destruct (IH H) as (l1 & l2 & -> & Hall & Hx).
    exists (a :: l1), l2. auto.
Qed.

Lemma filter_none {A} (f : A -> bool) l :
  filter f l = [] -> Forall (fun y => f y = false) l.
Proof.
  induction l as [|a l IH]; cbn; [constructor|].
  destruct (f a) eqn:Ha; [discriminate|]. auto.
Qed.

(** The selection made on a turn is the one [select] makes on the ledger
    the forced-transition phase leaves. *)
Lemma process_selected i c sel :
  selected (snd (process i c)) = Some sel ->
  sel = snd (select (fst (transition i c)))
  /\ fst (process i c) = fst (select (fst (transition i c))).
Proof.
  unfold process. destruct (transition i c) as [c1 h]. cbn.
  destruct (_ || _); [|discriminate].
  destruct (select c1); cbn. intros H. injection H as ->. auto.
Qed.

(** The project branch takes the first entry of [discovered_projects], in
    the order the research phase supplied them, that has a non-empty name
    whose normalized form is not covered; every earlier entry is covered
    or nameless. *)
Theorem project_choice_is_first_available (c : Ctx) (p : Project) :
  snd (select c) = SelProject p ->
  exists before after n,
    discovered_projects c = before ++ p :: after
    /\ Forall (fun q => project_available (normalized_covered c) q = false)
              before
    /\ project_name p = Some n
    /\ n <> EmptyString
    /\ ~ In (normalize n) (normalized_covered c)
    /\ current_topic (fst (select c)) = Some ("Project: " ++ n)%string.
Proof.
  unfold select. destruct (_ && _); [discriminate|].
  destruct (filter _ _) as [|q l] eqn:Hf;
    [destruct (verified_skills c); discriminate|].
  cbn. intros H. injection H as <-.
  destruct (filter_first _ _ _ _ Hf) as (l1 & l2 & Hd & Hall & Hq).
  unfold project_available in Hq. unfold show_name.
  destruct (project_name q) as [n|] eqn:Hn; [|discriminate].
  apply andb_prop in Hq as [Hne Hq]. apply negb_true_iff in Hq.
  exists l1, l2, n. repeat split; auto.
  - intros ->. discriminate Hne.
  - now apply mem_not_In.
Qed.

Lemma project_choice_is_first_available_witness :
  let c := mkCtx INTERVIEWING [] [] 
                 [PDict (Some "PayAPI") None; PStr ""; PStr "Scraper"]
                 None ["payapi "] 0 0 1 in
  exists before after n,
    discovered_projects c = before ++ PStr "Scraper" :: after
    /\ Forall (fun q => project_available (normalized_covered c) q = false)
              before
    /\ project_name (PStr "Scraper") = Some n
    /\ n <> EmptyString
    /\ ~ In (normalize n) (normalized_covered c)
    /\ current_topic (fst (select c)) = Some ("Project: " ++ n)%string.
Proof.
  cbv zeta.
  apply (project_choice_is_first_available
           (mkCtx INTERVIEWING [] []
                  [PDict (Some "PayAPI") None; PStr ""; PStr "Scraper"]
                  None ["payapi "] 0 0 1)
           (PStr "Scraper")).
  reflexivity.
Defined.

(** Verified skills are a fallback for projects, and the generic prompt a
    fallback for both: a verified skill is chosen only when no discovered
    project is available, it is the first CV skill whose normalized name
    is neither an unverified skill nor covered; the generic prompt is
    used only when no project and no such skill is left, and it leaves
    [current_topic] as it was. *)
Theorem fallback_order (c : Ctx) :
  (forall skill,
      snd (select c) = SelVerified skill ->
      Forall (fun q => project_available (normalized_covered c) q = false)
             (discovered_projects c)
      /\ (exists before after,
             cv_skills c = before ++ skill :: after
             /\ Forall (fun s =>
                          In (normalize s)
                             (map normalize (unverified_skills c))
                          \/ In (normalize s) (normalized_covered c))
                       before)
      /\ ~ In (normalize skill) (map normalize (unverified_skills c))
      /\ ~ In (normalize skill) (normalized_covered c))
  /\ (snd (select c) = SelGeneric ->
      Forall (fun q => project_available (normalized_covered c) q = false)
             (discovered_projects c)
      /\ Forall (fun s =>
                   In (normalize s) (map normalize (unverified_skills c))
                   \/ In (normalize s) (normalized_covered c))
                (cv_skills c)
      /\ current_topic (fst (select c)) = current_topic c).
Proof.
  assert (Hneg : forall s,
             negb (Text.mem (normalize s)
                            (map normalize (unverified_skills c)))
             && negb (Text.mem (normalize s) (normalized_covered c)) = false ->
             In (normalize s) (map normalize (unverified_skills c))
             \/ In (normalize s) (normalized_covered c)).
  { intros s H. apply andb_false_iff in H as [H|H];
      apply negb_false_iff in H; apply mem_In in H; auto. }
  unfold select. destruct (_ && _); [split; discriminate|].
  destruct (filter _ (discovered_projects c)) as [|q l] eqn:Hf;
    [|split; discriminate].
  apply filter_none in Hf.
  destruct (verified_skills c) as [|s l] eqn:Hv; cbn.
  - split; [discriminate|]. intros _. split; [exact Hf|].
    split; [|reflexivity].
    unfold verified_skills in Hv. apply filter_none in Hv.
    eapply Forall_impl; [|exact Hv]. exact Hneg.
  - split; [|discriminate]. intros skill H. injection H as <-.
    unfold verified_skills in Hv.
    destruct (filter_first _ _ _ _ Hv) as (l1 & l2 & Hd & Hall & Hs).
    apply andb_prop in Hs as [H1 H2].
    apply negb_true_iff in H1, H2. apply mem_not_In in H1, H2.
    split; [exact Hf|]. split; [|auto].
    exists l1, l2. split; [exact Hd|].
    eapply Forall_impl; [|exact Hall]. exact Hneg.
Qed.

Lemma fallback_order_witness :
  let c := mkCtx INTERVIEWING ["Go"; "Python"; "Rust"] ["go"]
                 [PDict (Some "PayAPI") None] None ["PayAPI"; "python"]
                 0 1 1 in
  ~ In (normalize "Rust") (normalized_covered c)
  /\ current_topic (fst (select (mkCtx INTERVIEWING [] [] [] None [] 0 0 0)))
     = None.
Proof.
  cbv zeta. split.
  - apply (proj1 (fallback_order
             (mkCtx INTERVIEWING ["Go"; "Python"; "Rust"] ["go"]
                    [PDict (Some "PayAPI") None] None ["PayAPI"; "python"]
                    0 1 1)) "Rust").
    reflexivity.
  - apply (proj2 (fallback_order
             (mkCtx INTERVIEWING [] [] [] None [] 0 0 0))).
    reflexivity.
Defined.

(** Through the project and verified-skill branches a covered name never
    comes back: whatever turns follow, returned or failed, a project or
    verified skill the selector picks has a normalized name that was not
    covered at any earlier point of the session. *)
Theorem covered_names_stay_retired
    (c : Ctx) (turns : list (string * Outcome string))
    (user_input : string) :
  match snd (select (fst (transition user_input (session turns c)))) with
  | SelProject p =>
      forall n, project_name p = Some n ->
                ~ In (normalize n) (normalized_covered c)
  | SelVerified skill =>
      ~ In (normalize skill) (normalized_covered c)
  | _ => True
  end.
Proof.
  set (c1 := fst (transition user_input (session turns c))).
  assert (Hsub : forall x, In x (normalized_covered c) ->
                           In x (normalized_covered c1)).
  { intros x Hx.
    destruct (LedgerAccounting.session_ledger (turns ++ [(user_input, Raises)])
                c) as (added & Hc & _).
    cbv zeta in Hc. rewrite session_snoc in Hc. cbn [fst snd step] in Hc.
    destruct (raising_turn user_input (session turns c)) as (Hk & _).
    cbv zeta in Hk. rewrite Hk in Hc. fold c1 in Hc.
    unfold normalized_covered in *. rewrite Hc, map_app.
    apply in_or_app. now left. }
  destruct (snd (select c1)) as [s|p|s|] eqn:Hs; try exact I.
  - intros n Hn Hin.
    destruct (CoverageFacts.select_project_fresh c1 p Hs) as (m & Hm & Hfresh).
    rewrite Hn in Hm. injection Hm as <-. auto.
  - intros Hin. apply (CoverageFacts.select_verified_fresh c1 s Hs). auto.
Qed.

End SelectionOrder.

(** ** Progress of a session through the orchestrator *)

Module ProgressFacts.

Import Orchestrator Progress OrchestratorFacts.

Lemma chat_rank e i s :
  state s <> UNKNOWN ->
  rank (state s) <= rank (state (snd (chat e i s)))
  /\ state (snd (chat e i s)) <> UNKNOWN.
Proof.
  unfold chat, route, returned.
  destruct (greets _ && _ && _); destruct (state s) eqn:Hs;
    destruct (reply e); try destruct (research_done e);
    try destruct (_ || _); try destruct (selects e);
    cbn; intros H; split; try lia; try discriminate; congruence.
Qed.

Lemma after_snoc turns t s :
  after (turns ++ [t]) s = snd (chat (fst t) (snd t) (after turns s)).
Proof. unfold after. now rewrite fold_left_app. Qed.

(** The state of a session only moves forward: along any sequence of
    turns, whatever the inputs and whether or not the agents return, the
    rank of the state (START/RESEARCH, KPI_CALCULATION, INTERVIEW_START,
    INTERVIEWING, SCORING) never decreases, and no unknown state appears. *)
Theorem state_only_advances
    (s : Session) (turns : list (Env * string)) :
  state s <> UNKNOWN ->
  rank (state s) <= rank (state (after turns s))
  /\ state (after turns s) <> UNKNOWN.
Proof.
  intros Hs. induction turns as [|t turns IH] using rev_ind.
  - cbn. auto.
  - rewrite after_snoc. destruct IH as [IH1 IH2].
    destruct (chat_rank (fst t) (snd t) (after turns s) IH2) as [H1 H2].
    split; [lia | exact H2].
Qed.

Lemma state_only_advances_witness :
  let ok := mkEnv true true (Returns "Understood.") in
  let s := snd (chat ok "skip" new_session) in
  rank (state s)
  <= rank (state (after [(ok, "ready"); (mkEnv true true Raises, "hi")] s)).
Proof.
  cbv zeta.
  apply (state_only_advances
           (snd (chat (mkEnv true true (Returns "Understood.")) "skip"
                      new_session))).
  discriminate.
Defined.

(** The history records exactly the answered turns: two entries for each
    turn on which the dispatched agent returned, none for a turn on which
    it raised. *)
Theorem history_counts_answered_turns
    (s : Session) (turns : list (Env * string)) :
  length (history (after turns s))
  = length (history s) + 2 * returned_turns turns.
Proof.
  induction turns as [|t turns IH] using rev_ind.
  - cbn. lia.
  - rewrite after_snoc. unfold returned_turns in *.
    rewrite filter_app, length_app.
    remember (length (filter _ turns)) as n eqn:Hn. clear Hn.
    unfold chat at 1.
    destruct (route (fst t) (snd t) (after turns s)) as [a st].
    cbn [filter]. unfold returned.
    destruct (reply (fst t)); cbn; [rewrite length_app; cbn|]; lia.
Qed.

(** The interviewer is only dispatched while the history has at most 25
    entries; in a session that started at [new_session] it is dispatched
    in an interviewing state, with at least 4 entries recorded. *)
Lemma interviewer_dispatch e i s :
  reachable s ->
  fst (chat e i s) = InterviewerAgent ->
  (state s = INTERVIEW_START \/ state s = INTERVIEWING)
  /\ 4 <= length (history s) <= 25.
Proof.
  intros Hr. apply reachable_seasoned in Hr. revert Hr.
  unfold seasoned, chat, route.
  destruct (greets _ && _ && _);
    [destruct (reply e); cbn; discriminate|].
  destruct (state s) eqn:Hs; intros Hse;
    try (destruct (reply e); cbn; discriminate); try contradiction.
  all: destruct (Text.contains _ _); cbn [orb];
    [destruct (reply e); cbn; discriminate|].
  all: destruct (Nat.ltb_spec 25 (length (history s)));
    [destruct (reply e); cbn; discriminate|].
  all: intros _; split; [auto | lia].
Qed.

Lemma reachable_after turns s : reachable s -> reachable (after turns s).
Proof.
  intros Hr. induction turns as [|t turns IH] using rev_ind; [exact Hr|].
  rewrite after_snoc. now constructor.
Qed.

Lemma answered_by_snoc a turns t s :
  answered_by a (turns ++ [t]) s
  = answered_by a turns s
    + (if Agent_eqb (fst (chat (fst t) (snd t) (after turns s))) a
          && returned (fst t)
       then 1 else 0).
Proof.
  revert s. induction turns as [|[e i] turns IH]; intros s.
  - destruct t as [e i]. unfold after.
    cbn [app answered_by fold_left fst snd]. lia.
  - cbn [app answered_by]. rewrite IH. unfold after.
    cbn [fold_left fst snd]. lia.
Qed.

(** An interview has at most eleven answered interviewer turns: from a
    new session, over any sequence of turns, the interviewer is dispatched
    and returns at most 11 times before the history cap hands the session
    to scoring. *)
Theorem at_most_eleven_interviewer_turns (turns : list (Env * string)) :
  answered_by InterviewerAgent turns new_session <= 11.
Proof.
  assert (H : let n := answered_by InterviewerAgent turns new_session in
              (n = 0 \/ 2 * n + 4 <= length (history (after turns new_session)))
              /\ n <= 11).
  { induction turns as [|t turns IH] using rev_ind.
    - cbn. split; [auto | lia].
    - cbv zeta in *. rewrite answered_by_snoc, after_snoc.
      destruct IH as [IH1 IH2].
      pose proof (chat_history (fst t) (snd t) (after turns new_session))
        as Hgrow.
      destruct (Agent_eqb _ _ && returned (fst t)) eqn:Hd.
      + apply andb_prop in Hd as [Ha Hret].
        assert (Hag : fst (chat (fst t) (snd t) (after turns new_session))
                      = InterviewerAgent)
          by (destruct (fst (chat _ _ _)); try discriminate; reflexivity).
        destruct (interviewer_dispatch _ _ _
                    (reachable_after turns new_session reach_new) Hag)
          as [_ [Hlo Hhi]].
        assert (Hlen : length (history (snd (chat (fst t) (snd t)
                                               (after turns new_session))))
                       = length (history (after turns new_session)) + 2).
        { unfold chat. destruct (route _ _ _) as [a st].
          unfold returned in Hret.
          destruct (reply (fst t)); [|discriminate].
          cbn. rewrite length_app. cbn. lia. }
        rewrite Hlen. split; [right; lia | lia].
      + split; [|lia]. destruct IH1 as [->|IH1]; [left; lia | right; lia]. }
  exact (proj2 H).
Qed.

End ProgressFacts.

(** ** The graph's router and the analysis gate *)

Module RouterFacts.

Import Research Router.

(** The router never names the feedback node: whatever the last message
    is, [should_continue] answers "tools", "research", "interviewer" or
    [END], so the "feedback" key of the interviewer's edges is never
    taken. *)
Theorem router_never_reaches_feedback (m : Message) :
  should_continue m <> ToFeedback.
Proof.
  unfold should_continue.
  destruct (negb _); [discriminate|].
  destruct (_ || _); [discriminate|].
  destruct (_ || _); [discriminate|].
  destruct (Text.contains _ _); [discriminate|].
  destruct (is_ai m); [|discriminate].
  destruct (_ || _); discriminate.
Qed.

(** The recovery closes the analysis gate, an empty answer does not: after
    a reply that is not a JSON object the state holds a non-empty
    [unverified_skills], so [research_node] does not take the analysis
    step again; after a parsed reply that names no unverified skill
    (missing key or empty list) the gate of a verified session is open
    again. *)
Theorem recovery_closes_analysis_gate (is_zero : string -> bool) :
  (forall loaded s,
      (forall fields, loaded <> Returns (JDict fields)) ->
      ready_for_analysis is_zero (after_analysis loaded s) = false)
  /\ (forall fields s,
        github_verified s = true ->
        linkedin_verified s = true ->
        get "unverified_skills" fields = None
        \/ get "unverified_skills" fields = Some (JList []) ->
        ready_for_analysis is_zero (after_analysis (Returns (JDict fields)) s)
        = true).
Proof.
  split.
  - intros loaded s Hl. unfold ready_for_analysis, after_analysis.
    destruct loaded as [[]|]; cbn; try apply andb_false_r.
    now specialize (Hl fields).
  - intros fields s Hg Hli Hu.
    unfold ready_for_analysis, after_analysis, graph_analysis, get_default.
    cbn. rewrite Hg, Hli. destruct Hu as [-> | ->]; reflexivity.
Qed.

Lemma recovery_closes_analysis_gate_witness :
  ready_for_analysis (fun _ => false)
    (after_analysis Raises (mkResearchState true true None None)) = false
  /\ ready_for_analysis (fun _ => false)
       (after_analysis
          (Returns (JDict [("unverified_skills", JList []);
                           ("analysis", JStr "Nothing stands out.")]))
          (mkResearchState true true None None)) = true.
Proof.
  split.
  - apply (proj1 (recovery_closes_analysis_gate (fun _ => false))).
    discriminate.
  - apply (proj2 (recovery_closes_analysis_gate (fun _ => false)));
      try reflexivity.
    right. reflexivity.
Defined.

End RouterFacts.

(** ** The repository search *)

Module SerperFacts.

Import Research Serper.

Lemma prefix_empty s : String.prefix EmptyString s = true.
Proof. now destruct s. Qed.

Lemma contains_empty s : Text.contains EmptyString s = true.
Proof. destruct s; cbn; now rewrite ?prefix_empty. Qed.

Lemma contains_slash_cons c r :
  Text.contains "/" (String c r) = Ascii.eqb c "/" || Text.contains "/" r.
Proof.
  cbn [Text.contains String.prefix].
  destruct (ascii_dec "/" c) as [<-|Hne].
  - now rewrite prefix_empty.
  - destruct (Ascii.eqb_spec c "/"); [congruence | reflexivity].
Qed.

Lemma take_token_no_space s :
  forallb (fun c => negb (Text.is_space c))
          (list_ascii_of_string (take_token s)) = true.
Proof.
  induction s as [|c s IH]; [reflexivity|].
  cbn [take_token]. destruct (Text.is_space c) eqn:Hc; [reflexivity|].
  cbn. now rewrite Hc, IH.
Qed.

Lemma take_token_slash s :
  Text.contains "/" (take_token s) = true -> Text.contains "/" s = true.
Proof.
  induction s as [|c s IH]; [discriminate|].
  cbn [take_token]. destruct (Text.is_space c); [discriminate|].
  rewrite !contains_slash_cons. destruct (Ascii.eqb c "/"); cbn; auto.
Qed.

Lemma lstrip_slash s :
  Text.contains "/" (Text.lstrip s) = true -> Text.contains "/" s = true.
Proof.
  induction s as [|c s IH]; [discriminate|].
  cbn [Text.lstrip]. destruct (Text.is_space c); [|auto].
  intros H. rewrite contains_slash_cons, (IH H). apply orb_true_r.
Qed.

Lemma first_token_slash t :
  Text.contains "/" (first_token t) = true -> Text.contains "/" t = true.
Proof. intros H. now apply lstrip_slash, take_token_slash. Qed.

Lemma repos_of_shape username hits :
  Forall (fun r =>
            Text.contains "/" (repo_name r) = true
            /\ forallb (fun c => negb (Text.is_space c))
                       (list_ascii_of_string (repo_name r)) = true
            /\ exists h, In h hits
                         /\ repo_name r = first_token (title h)
                         /\ repo_description r = snippet h)
         (repos_of username hits).
Proof.
  induction hits as [|h hits IH]; [constructor|].
  assert (IH' : Forall (fun r =>
            Text.contains "/" (repo_name r) = true
            /\ forallb (fun c => negb (Text.is_space c))
                       (list_ascii_of_string (repo_name r)) = true
            /\ exists h', In h' (h :: hits)
                          /\ repo_name r = first_token (title h')
                          /\ repo_description r = snippet h')
         (repos_of username hits)).
  { eapply Forall_impl; [|exact IH].
    intros r (H1 & H2 & h' & H3 & H4). repeat split; auto.
    exists h'. cbn. tauto. }
  cbn [repos_of]. destruct (_ && _); [|exact IH'].
  destruct (Text.contains "/" (first_token (title h))) eqn:Hs; [|exact IH'].
  constructor; [|exact IH']. cbn. split; [exact Hs|].
  split; [apply take_token_no_space|].
  exists h. auto.
Qed.

Lemma Forall_firstn {A} (P : A -> Prop) n l :
  Forall P l -> Forall P (firstn n l).
Proof.
  intros H. rewrite <- (firstn_skipn n l) in H.
  now apply Forall_app in H.
Qed.

(** What [get_github_repos] hands back: at most three repositories, each
    named by the first word of a search hit's title, a word that contains
    a slash and no whitespace, and described by that hit's snippet; and nothing at all without an API key, for an empty URL, or
    when the search fails. *)
Theorem github_repos_shape
    (api_key : option string) (search : string -> Outcome (list Hit))
    (github_url : string) :
  let repos := get_github_repos api_key search github_url in
  length repos <= 3
  /\ Forall (fun r =>
               Text.contains "/" (repo_name r) = true
               /\ forallb (fun c => negb (Text.is_space c))
                          (list_ascii_of_string (repo_name r)) = true
               /\ exists hits h,
                   search ("site:github.com " ++ dquote
                           ++ after_last_slash github_url ++ dquote
                           ++ " repositories")%string = Returns hits
                   /\ In h hits
                   /\ repo_name r = first_token (title h)
                   /\ repo_description r = snippet h)
            repos
  /\ (truthy api_key = false \/ github_url = EmptyString
      \/ search ("site:github.com " ++ dquote
                 ++ after_last_slash github_url ++ dquote
                 ++ " repositories")%string = Raises ->
      repos = []).
Proof.
  cbv zeta. unfold get_github_repos.
  destruct (truthy api_key) eqn:Hk; cbn [negb orb];
    [|repeat split; [cbn; lia | constructor]].
  destruct github_url as [|c url] eqn:Hu; cbn [Text.nonempty negb];
    [repeat split; [cbn; lia | constructor]|].
  rewrite <- Hu.
  destruct (search _) as [hits|] eqn:Hs;
    [|repeat split; [cbn; lia | constructor]].
  split; [apply firstn_le_length|]. split.
  - apply Forall_firstn. eapply Forall_impl; [|apply repos_of_shape].
    intros r (H1 & H2 & h & H3 & H4 & H5). repeat split; auto.
    exists hits, h. auto.
  - intros [H | [H | H]]; [discriminate | subst; discriminate | discriminate].
Qed.

Lemma after_last_slash_trailing base :
  after_last_slash (base ++ "/") = EmptyString.
Proof.
  induction base as [|c base IH]; [reflexivity|].
  cbn [append after_last_slash].
  replace (Text.contains "/" (base ++ "/")) with true; [exact IH|].
  symmetry. apply (TextFacts.contains_app "/" base EmptyString).
Qed.

(** A profile URL that ends in a slash makes the user name empty, and an
    empty user name filters nothing: every hit whose title begins with a
    word containing a slash is reported as one of the candidate's
    repositories, whoever it belongs to. *)
Theorem trailing_slash_disables_user_filter
    (base : string) (hits : list Hit) :
  repos_of (after_last_slash (base ++ "/")) hits
  = map (fun h => mkRepo (first_token (title h)) (snippet h))
        (filter (fun h => Text.contains "/" (first_token (title h))) hits).
Proof.
  rewrite after_last_slash_trailing.
  induction hits as [|h hits IH]; [reflexivity|].
  cbn [repos_of filter Text.lower]. rewrite contains_empty, andb_true_r.
  destruct (Text.contains "/" (first_token (title h))) eqn:Hs.
  - rewrite (first_token_slash _ Hs). cbn [map]. now rewrite IH.
  - destruct (Text.contains "/" (title h)); exact IH.
Qed.

End SerperFacts.

(** ** The research turn *)

Module ResearchTurnFacts.

Import Research ResearchTurn.

Lemma perform_returns g github chain :
  exists analysis unverified projects,
    perform_deep_analysis g github chain
    = Returns (analysis, unverified, projects).
Proof.
  unfold perform_deep_analysis.
  destruct (analyse _ _) as [[[a u] p]|]; eauto.
Qed.

Lemma analysed_returns g chain github c gok lok from_chat :
  exists r,
    analysed g chain github c gok lok from_chat = Returns r
    /\ next_state r = Some KPI_CALCULATION
    /\ cv (context r) = c
    /\ github_verified (context r) = gok
    /\ linkedin_verified (context r) = lok.
Proof.
  unfold analysed.
  destruct (perform_returns g github chain) as (a & u & p & ->).
  eexists. split; [reflexivity|]. cbn. auto.
Qed.

(** After the migration a known link is a contact link. *)
Lemma migrated_github c :
  truthy (or_else (contact_github (migrate c)) (flat_github (migrate c)))
  = truthy (contact_github (migrate c)).
Proof.
  unfold or_else, migrate. cbn.
  destruct (truthy (contact_github c)) eqn:H1; cbn; [now rewrite H1|].
  destruct (truthy (flat_github c)) eqn:H2; cbn; rewrite ?H2, ?H1, ?H2;
    reflexivity.
Qed.

Lemma migrated_linkedin c :
  truthy (or_else (contact_linkedin (migrate c)) (flat_linkedin (migrate c)))
  = truthy (contact_linkedin (migrate c)).
Proof.
  unfold or_else, migrate. cbn.
  destruct (truthy (contact_linkedin c)) eqn:H1; cbn; [now rewrite H1|].
  destruct (truthy (flat_linkedin c)) eqn:H2; cbn; rewrite ?H2, ?H1, ?H2;
    reflexivity.
Qed.

Lemma missing_none github linkedin gok lok :
  missing_prompts github linkedin gok lok = [] ->
  usable github = true /\ usable linkedin = true
  /\ gok = true /\ lok = true.
Proof.
  unfold missing_prompts, usable.
  destruct github as [g|]; destruct linkedin as [l|]; cbn;
    try discriminate;
    try (destruct (Text.nonempty g); destruct (String.eqb g "N/A");
         destruct gok; discriminate).
  destruct (Text.nonempty g); destruct (String.eqb g "N/A");
    destruct (Text.nonempty l); destruct (String.eqb l "N/A");
    destruct gok; destruct lok; cbn; try discriminate; auto.
Qed.

Section Turn.

Variable verify_link : string -> option string -> bool.
Variable find_github : string -> option string.
Variable find_linkedin : string -> option string.
Variable get_github_repos : string -> list Repo.
Variable chain : Outcome json.

Let turn := process verify_link find_github find_linkedin
                    get_github_repos chain.

(** A candidate who declines to give links is always let through: when
    the input contains one of the declining phrases the reply moves on to
    [KPI_CALCULATION] without any analysis (the pools of the context are
    untouched), and afterwards both contact links hold a value, the link
    that was known or ["N/A"]. *)
Theorem declining_moves_on (user_input : string) (ctx : Ctx) :
  declines (Text.lower user_input) = true ->
  exists r,
    turn user_input ctx = Returns r
    /\ answer r = Proceeding
    /\ next_state r = Some KPI_CALCULATION
    /\ unverified_skills (context r) = unverified_skills ctx
    /\ discovered_projects (context r) = discovered_projects ctx
    /\ truthy (contact_github (cv (context r))) = true
    /\ truthy (contact_linkedin (cv (context r))) = true.
Proof.
  intros Hd. unfold turn, process. rewrite Hd.
  eexists. split; [reflexivity|]. cbn [answer next_state context cv
    unverified_skills discovered_projects contact_github contact_linkedin].
  repeat split.
  - rewrite migrated_github.
    destruct (truthy (contact_github (migrate (cv ctx)))) eqn:H;
      [exact H | reflexivity].
  - rewrite migrated_linkedin.
    destruct (truthy (contact_linkedin (migrate (cv ctx)))) eqn:H;
      [exact H | reflexivity].
Qed.

(** The research turn always answers, and it reports no state but
    [KPI_CALCULATION].  It reports it only when the candidate declines,
    when a link given in the message verifies, or when both links of the
    CV are usable and verified. *)
Theorem research_advances_only_when (user_input : string) (ctx : Ctx) :
  let c := migrate (cv ctx) in
  let name := candidate_name c in
  let github := or_else (contact_github c) (flat_github c) in
  let linkedin := or_else (contact_linkedin c) (flat_linkedin c) in
  exists r,
    turn user_input ctx = Returns r
    /\ (next_state r = None \/ next_state r = Some KPI_CALCULATION)
    /\ (next_state r = Some KPI_CALCULATION ->
        declines (Text.lower user_input) = true
        \/ (mentions_link (Text.lower user_input) = true
            /\ ((exists m, find_github user_input = Some m
                           /\ verify_link (as_url m) name = true)
                \/ (exists m, find_linkedin user_input = Some m
                              /\ verify_link (as_url m) name = true)))
        \/ (usable github = true /\ usable linkedin = true
            /\ github_verified (context r) = true
            /\ linkedin_verified (context r) = true)).
Proof.
  cbv zeta. unfold turn, process.
  set (c := migrate (cv ctx)).
  set (name := candidate_name c).
  set (github := or_else (contact_github c) (flat_github c)).
  set (linkedin := or_else (contact_linkedin c) (flat_linkedin c)).
  set (gok := if usable github && negb (github_verified ctx) then _ else _).
  set (lok := if usable linkedin && negb (linkedin_verified ctx)
              then _ else _).
  destruct (declines _) eqn:Hd.
  { eexists. split; [reflexivity|]. cbn. auto. }
  assert (Hother :
    exists r,
      match missing_prompts github linkedin gok lok with
      | [] => analysed get_github_repos chain github c gok lok false
      | _ :: _ =>
          Returns (mkReply (LinksNeeded
                              (missing_prompts github linkedin gok lok))
                     (mkCtx c gok lok (unverified_skills ctx)
                            (discovered_projects ctx)) None)
      end = Returns r
      /\ (next_state r = None \/ next_state r = Some KPI_CALCULATION)
      /\ (next_state r = Some KPI_CALCULATION ->
          usable github = true /\ usable linkedin = true
          /\ github_verified (context r) = true
          /\ linkedin_verified (context r) = true)).
  { destruct (missing_prompts github linkedin gok lok) eqn:Hm.
    - destruct (analysed_returns get_github_repos chain github c gok lok false)
        as (r & -> & Hn & _ & Hg & Hl).
      exists r. split; [reflexivity|]. split; [auto|]. intros _.
      rewrite Hg, Hl. apply missing_none. exact Hm.
    - eexists. split; [reflexivity|]. cbn. split; [auto | discriminate]. }
  destruct (mentions_link _) eqn:Hm.
  2: { destruct Hother as (r & Hr & Hn & Hk). exists r.
       split; [exact Hr|]. split; [exact Hn|]. auto. }
  destruct (find_github user_input) as [mg|] eqn:Hg;
    destruct (find_linkedin user_input) as [ml|] eqn:Hl;
    try destruct (verify_link (as_url mg) name) eqn:Hvg;
    try destruct (verify_link (as_url ml) name) eqn:Hvl;
    cbn [orb app].
  all: try (match goal with
            | |- context [analysed ?g ?ch ?gh ?cc ?a ?b true] =>
                destruct (analysed_returns g ch gh cc a b true)
                  as (r & -> & Hn & _); exists r;
                split; [reflexivity|]; split; [auto|]; intros _;
                right; left; split; [reflexivity|]; eauto
            end).
  all: try (eexists; split; [reflexivity|]; cbn;
            split; [auto | discriminate]).
  destruct Hother as (r & Hr & Hn & Hk). exists r.
  split; [exact Hr|]. split; [exact Hn|]. auto.
Qed.


End Turn.

Lemma declining_moves_on_witness :
  exists r,
    process (fun _ _ => false) (fun _ => None) (fun _ => None)
            (fun _ => []) Raises
            "I don't have a GitHub, can we skip this?"
            (mkCtx (mkCv None (Some "https://linkedin.com/in/priya") Missing
                         None None (Some "Priya Sharma"))
                   false false (JList []) [])
    = Returns r
    /\ next_state r = Some KPI_CALCULATION
    /\ contact_github (cv (context r)) = Some "N/A".
Proof.
  destruct (declining_moves_on (fun _ _ => false) (fun _ => None)
              (fun _ => None) (fun _ => []) Raises
              "I don't have a GitHub, can we skip this?"
              (mkCtx (mkCv None (Some "https://linkedin.com/in/priya") Missing
                           None None (Some "Priya Sharma"))
                     false false (JList []) [])
              eq_refl)
    as (r & Hr & _ & Hn & _).
  exists r. split; [exact Hr|]. split; [exact Hn|].
  cbv in Hr. injection Hr as <-. reflexivity.
Defined.

End ResearchTurnFacts.

(** ** The LangGraph-era agent and node *)

Module GraphFacts.

Import Interviewer LedgerFacts.

Arguments is_unverified_topic : simpl never.
Arguments topic_name : simpl never.

Lemma graph_run_snoc replies r c :
  GraphAgentRun.run (replies ++ [r]) c
  = GraphAgentRun.step r (GraphAgentRun.run replies c).
Proof. unfold GraphAgentRun.run. now rewrite fold_left_app. Qed.

Lemma graph_select_ratio c :
  ratio_ok c -> ratio_ok (fst (GraphAgent.select c)).
Proof.
  intros [H1 H2]. unfold GraphAgent.select.
  destruct (Nat.ltb_spec (unverified_asked c)
              (length (unverified_skills c))) as [Hv|Hv];
    destruct (Nat.ltb_spec (projects_asked c) (unverified_asked c * 2))
      as [Hp|Hp]; cbn [negb andb orb].
  2: { split; [exact H1|]. intros t Ht _ Hu. cbn in Ht. injection Ht as <-.
       change (is_unverified_topic
                 ("Unverified: "
                  ++ nth (unverified_asked c) (unverified_skills c) "")%string
               = false) in Hu.
       rewrite unverified_tag in Hu. discriminate Hu. }
  all: destruct (filter _ _); cbn; (split; [exact H1|]).
  all: try (intros t Ht Htr Hu; apply (H2 t Ht Htr Hu)).
  all: intros t _ _ _; unfold set_topic, set_state; cbn; lia.
Qed.

Lemma graph_update_ratio r c :
  ratio_ok c -> ratio_ok (GraphAgent.update_trackers r c).
Proof.
  intros [H1 H2]. unfold GraphAgent.update_trackers.
  destruct (GraphAgent.moves_on r); [|split; assumption].
  destruct (current_topic c) as [t|] eqn:Ht.
  - destruct (truthy (Some t)) eqn:Htr.
    + split; [|intros t' Hn; discriminate Hn]. cbn.
      destruct (is_unverified_topic t) eqn:Hu; [lia|].
      specialize (H2 t eq_refl Htr Hu). lia.
    + split; [exact H1 | intros t' Hn; discriminate Hn].
  - split; [exact H1 | intros t' Hn; discriminate Hn].
Qed.

Lemma graph_process_ratio r c :
  ratio_ok c -> ratio_ok (fst (GraphAgent.process r c)).
Proof.
  intros H. unfold GraphAgent.process.
  destruct (_ || _).
  - destruct (GraphAgent.select c) as [c1 sel] eqn:Hs. cbn.
    apply graph_update_ratio.
    change c1 with (fst (c1, sel)). rewrite <- Hs.
    now apply graph_select_ratio.
  - cbn. now apply graph_update_ratio.
Qed.

Lemma graph_agent_step_ratio r c :
  ratio_ok c -> ratio_ok (GraphAgentRun.step r c).
Proof.
  intros H. destruct r as [response|]; cbn [GraphAgentRun.step].
  - now apply graph_process_ratio.
  - destruct (_ || _); [now apply graph_select_ratio | exact H].
Qed.

(** The LangGraph-era agent keeps the same ratio, and on the states it can
    reach its looser test agrees with the strict one: over any sequence of
    turns, whether its model calls returned or raised, while unverified
    skills remain [projects_asked] is at most [unverified_asked * 2], so
    the agent picks an unverified skill exactly when
    [projects_asked == unverified_asked * 2]. *)
Theorem graph_agent_ratio
    (st : State) (skills unverified : list string)
    (projects : list Project) (responses : list (Outcome string)) :
  let c := GraphAgentRun.run responses
             (initial st skills unverified projects) in
  (unverified_asked c < length (unverified_skills c) ->
   projects_asked c <= unverified_asked c * 2)
  /\ ((exists skill, snd (GraphAgent.select c) = SelUnverified skill)
      <-> (unverified_asked c < length (unverified_skills c)
           /\ projects_asked c = unverified_asked c * 2)).
Proof.
  cbv zeta.
  set (c := GraphAgentRun.run responses
              (initial st skills unverified projects)).
  assert (H : ratio_ok c).
  { subst c. induction responses as [|r responses IH] using rev_ind.
    - split; cbn; [left; lia | intros t Ht; discriminate].
    - rewrite graph_run_snoc. now apply graph_agent_step_ratio. }
  destruct H as [H _].
  split; [intros; lia|].
  unfold GraphAgent.select.
  destruct (Nat.ltb_spec (unverified_asked c)
              (length (unverified_skills c))) as [Hv|Hv];
    destruct (Nat.ltb_spec (projects_asked c) (unverified_asked c * 2))
      as [Hp|Hp]; cbn [negb andb orb].
  2: { cbn. split; [intros _; lia | intros _; eexists; reflexivity]. }
  all: split; [intros [k Hk] | intros [Ha Hb]; lia].
  all: destruct (filter _ _); discriminate.
Qed.

Lemma graph_agent_ratio_witness :
  let c := GraphAgentRun.run
             [Returns "Tell me more."; Raises; Returns "Good. Moving on.";
              Returns "Moving on to another area."]
             (initial INTERVIEWING [] ["Kubernetes"; "Kafka"]
                      [PDict (Some "PayAPI") None;
                       PDict (Some "Scraper") None]) in
  unverified_asked c < length (unverified_skills c)
  /\ projects_asked c <= unverified_asked c * 2.
Proof.
  cbv zeta.
  assert (H : unverified_asked
                (GraphAgentRun.run
                   [Returns "Tell me more."; Raises;
                    Returns "Good. Moving on.";
                    Returns "Moving on to another area."]
                   (initial INTERVIEWING [] ["Kubernetes"; "Kafka"]
                      [PDict (Some "PayAPI") None;
                       PDict (Some "Scraper") None]))
              < length (unverified_skills
                (GraphAgentRun.run
                   [Returns "Tell me more."; Raises;
                    Returns "Good. Moving on.";
                    Returns "Moving on to another area."]
                   (initial INTERVIEWING [] ["Kubernetes"; "Kafka"]
                      [PDict (Some "PayAPI") None;
                       PDict (Some "Scraper") None])))).
  { vm_compute. lia. }
  split; [exact H|].
  exact (proj1 (graph_agent_ratio INTERVIEWING [] ["Kubernetes"; "Kafka"]
                  [PDict (Some "PayAPI") None; PDict (Some "Scraper") None]
                  [Returns "Tell me more."; Raises;
                   Returns "Good. Moving on.";
                   Returns "Moving on to another area."]) H).
Defined.

Lemma names_of_dicts ps :
  Forall (fun p => exists n d, p = PDict (Some n) d) ps ->
  exists ns, Graph.names ps = Returns ns
             /\ Forall (fun n => n <> None) ns.
Proof.
  induction 1 as [|p ps (n & d & ->) _ (ns & Hn & Hall)].
  - exists []. split; [reflexivity | constructor].
  - exists (Some n :: ns). cbn. rewrite Hn. split; [reflexivity|].
    constructor; [discriminate | exact Hall].
Qed.

Lemma names_with_string ps x : In (PStr x) ps -> Graph.names ps = Raises.
Proof.
  induction ps as [|p ps IH]; [contradiction|].
  intros [-> | Hin]; [reflexivity|].
  cbn. destruct p; [|reflexivity]. now rewrite (IH Hin).
Qed.

(** [interviewer_node] needs every discovered project to be a record.
    When each one is a record with a name the node never raises; when some
    discovered project is a bare string it raises on every run, whatever
    the topic (the langchain agent accepts both shapes). *)
Theorem graph_node_needs_project_records
    (response : string) (s : Graph.AgentState) :
  (Forall (fun p => exists n d, p = PDict (Some n) d)
          (Graph.g_discovered_projects s) ->
   Graph.interviewer_node response s <> Raises)
  /\ (forall x,
        In (PStr x) (Graph.g_discovered_projects s) ->
        Graph.interviewer_node response s = Raises).
Proof.
  unfold Graph.interviewer_node, Graph.project_list. split.
  - intros Hall.
    destruct (names_of_dicts _ Hall) as (ns & Hn & Hns).
    unfold Graph.pick_topic. rewrite Hn.
    destruct (Graph.g_current_topic s) as [[|a r]|]; try discriminate.
    all: destruct (_ && _); [discriminate|].
    all: assert (Hf : Forall (fun n => n <> None)
                        (filter (Graph.not_covered (Graph.g_covered_topics s))
                                ns))
        by (apply Forall_forall; intros n Hin; apply filter_In in Hin as [Hin _];
            revert n Hin; now apply Forall_forall).
    all: destruct (filter _ ns) as [|[n|] l]; try discriminate.
    all: inversion Hf; congruence.
  - intros x Hin. rewrite (names_with_string _ x Hin).
    now destruct (Graph.pick_topic s).
Qed.

Lemma graph_node_needs_project_records_witness :
  Graph.interviewer_node "Moving on."
    (Graph.mkAgentState ["Kafka"] [PDict (Some "PayAPI") None] 0 0 [] None)
  <> Raises
  /\ Graph.interviewer_node "Moving on."
       (Graph.mkAgentState ["Kafka"] [PStr "PayAPI"] 0 0 [] None)
     = Raises.
Proof.
  split.
  - apply (proj1 (graph_node_needs_project_records "Moving on."
             (Graph.mkAgentState ["Kafka"] [PDict (Some "PayAPI") None]
                                 0 0 [] None))).
    repeat constructor. eauto.
  - apply (proj2 (graph_node_needs_project_records "Moving on."
             (Graph.mkAgentState ["Kafka"] [PStr "PayAPI"] 0 0 [] None))
             "PayAPI").
    now left.
Defined.

End GraphFacts.
